(** * A three-statement financial model generator, and the workbook it emits

    Shallow embedding of [generate_model.py].  The script fills five
    worksheets (Assumptions, Income Statement, Balance Sheet, Cash Flow
    Statement, Notes) with literal historical figures and with the text of
    spreadsheet formulas for the forecast years.  The embedding keeps that
    shape: the generator is a pure function producing a finite map from
    cells to what the script stores in them (numbers and strings, formulas
    being strings that start with [=]), and a separate part of the file
    gives the formulas a meaning (parser, evaluator, dependency graph). *)

From Stdlib Require Import QArith Qabs String Ascii DecimalString.
From stdpp Require Import gmap strings list relations.

(** ** Worksheets, cells and stored contents *)

Inductive sheet :=
  | Assumptions
  | IncomeStatement
  | BalanceSheet
  | CashFlowStatement
  | Notes.

Global Instance sheet_eq_dec : EqDecision sheet.
Proof. solve_decision. Defined.

Definition sheet_index (s : sheet) : nat :=
  match s with
  | Assumptions => 0
  | IncomeStatement => 1
  | BalanceSheet => 2
  | CashFlowStatement => 3
  | Notes => 4
  end.

Definition sheet_of_index (n : nat) : option sheet :=
  match n with
  | 0 => Some Assumptions
  | 1 => Some IncomeStatement
  | 2 => Some BalanceSheet
  | 3 => Some CashFlowStatement
  | 4 => Some Notes
  | _ => None
  end.

Global Instance sheet_countable : Countable sheet.
Proof. apply (inj_countable sheet_index sheet_of_index). by intros []. Defined.

(** The tab names given by [ws.title] / [wb.create_sheet]. *)
Definition title (s : sheet) : string :=
  match s with
  | Assumptions => "Assumptions"
  | IncomeStatement => "Income Statement"
  | BalanceSheet => "Balance Sheet"
  | CashFlowStatement => "Cash Flow Statement"
  | Notes => "Notes"
  end.

(** A cell is addressed as openpyxl does: worksheet, then (row, column),
    both counted from 1. *)
Definition cell : Type := sheet * (nat * nat).

Definition cell_sheet (c : cell) : sheet := c.1.
Definition cell_row (c : cell) : nat := c.2.1.
Definition cell_col (c : cell) : nat := c.2.2.

(** What the script assigns to [cell.value]: a Python number or a Python
    string.  A string whose first character is [=] is a formula for the
    host spreadsheet. *)
Inductive content :=
  | Num (q : Q)
  | Text (s : string).

Abbreviation wb := (gmap cell content).

(** [ws.cell(row=r, column=c, value=v)] *)
Definition set_cell (ws : sheet) (row col : nat) (v : content) (w : wb) : wb :=
  <[(ws, (row, col)) := v]> w.

(** Straight-line script code is a list of store updates run in order. *)
Definition run (steps : list (wb → wb)) (w : wb) : wb :=
  foldl (λ w step, step w) w steps.

(** ** Errors the script can raise

    A missing dictionary key raises [KeyError], a failed [assert] raises
    [AssertionError]; either one ends the script before [wb.save]. *)

Inductive error :=
  | KeyError (key : string)
  | AssertionError (msg : string).

Definition result (A : Type) : Type := error + A.

Global Instance result_ret : MRet result := λ _ x, inr x.
Global Instance result_bind : MBind result :=
  λ _ _ f m, match m with inl e => inl e | inr x => f x end.

Definition is_ok {A} (r : result A) : bool :=
  match r with inr _ => true | inl _ => false end.

(** [d[key]] on a Python dict. *)
Definition getitem (d : gmap string nat) (key : string) : result nat :=
  match d !! key with
  | Some r => inr r
  | None => inl (KeyError key)
  end.

(** [assert a == b, msg] *)
Definition assert_eq (a b : nat) (msg : string) : result unit :=
  if decide (a = b) then inr tt else inl (AssertionError msg).

(** ** Text helpers *)

(** [str(n)] for a non-negative integer. *)
Definition str (n : nat) : string := NilZero.string_of_uint (Nat.to_uint n).

(** The double-quote character used inside formula text. *)
Definition dquote : string := String (ascii_of_nat 34) EmptyString.

(** One capital letter, [chr(k + 64)] for k in 1..26. *)
Definition letter (k : nat) : string := String (ascii_of_nat (k + 64)) EmptyString.

(** [openpyxl.utils.get_column_letter]: bijective base 26, at most three
    letters (columns 1..18278). *)
Fixpoint column_letters (fuel col_idx : nat) : string :=
  match fuel with
  | 0 => EmptyString
  | S fuel' =>
      if decide (col_idx = 0) then EmptyString
      else
        let q := col_idx / 26 in
        let r := col_idx mod 26 in
        if decide (r = 0)
        then column_letters fuel' (q - 1) +:+ letter 26
        else column_letters fuel' q +:+ letter r
  end.

Definition get_column_letter (col_idx : nat) : string := column_letters 3 col_idx.

(** ** Column layout: A = labels, B = units, C-G = FY21-FY25, H-L = FY26-FY30 *)

Definition LABEL_COL : nat := 1.
Definition UNIT_COL : nat := 2.
Definition HIST_START : nat := 3.
Definition HIST_END : nat := 7.
Definition FC_START : nat := 8.
Definition FC_END : nat := 12.
Definition MAX_COL : nat := FC_END.

Definition FY_LABELS : list string :=
  ["FY21"; "FY22"; "FY23"; "FY24"; "FY25";
   "FY26F"; "FY27F"; "FY28F"; "FY29F"; "FY30F"].

(** [for i, x in enumerate(xs)] *)
Definition enumerate {A} (xs : list A) : list (nat * A) := imap pair xs.

(** The fiscal-year header row written at the top of every sheet. *)
Definition write_fy_header (ws : sheet) (r : nat) (w : wb) : wb :=
  foldl (λ w '(i, fy), set_cell ws r (HIST_START + i) (Text fy) w) w (enumerate FY_LABELS).

(** ** 1. Assumptions and drivers *)

(** [_write_values]: a list of 10 values into columns C-L; percentages are
    stored as fractions.  (No caller passes [None].) *)
Definition _write_values (ws : sheet) (row : nat) (vals : list Q) (is_pct : bool) (w : wb) : wb :=
  foldl (λ w '(i, v),
           let col := HIST_START + i in
           set_cell ws row col (Num (if is_pct then v / 100 else v)%Q) w)
        w (enumerate vals).

(** [_write_active_row]: historical columns reference the input row, the
    forecast columns hold an [IF] on the toggle cell. *)
Definition _write_active_row (ws : sheet) (active_row input_row : nat) (toggle_cell : string)
    (w : wb) : wb :=
  let w :=
    foldl (λ w i,
             let col := HIST_START + i in
             let cl := get_column_letter col in
             set_cell ws active_row col (Text ("=" +:+ cl +:+ str input_row)) w)
          w (seq 0 5) in
  let avg_start := get_column_letter (HIST_END - 2) in
  let avg_end := get_column_letter HIST_END in
  foldl (λ w i,
           let col := FC_START + i in
           let cl := get_column_letter col in
           set_cell ws active_row col
             (Text ("=IF(" +:+ toggle_cell +:+ "=" +:+ dquote +:+ "3yr Avg" +:+ dquote
                    +:+ ",AVERAGE(" +:+ avg_start +:+ str input_row +:+ ":"
                    +:+ avg_end +:+ str input_row +:+ ")," +:+ cl +:+ str input_row +:+ ")"))
             w)
        w (seq 0 5).

(** A section heading in column A. *)
Definition heading (ws : sheet) (row : nat) (label : string) : wb → wb :=
  set_cell ws row LABEL_COL (Text label).

(** The label and unit cells of one assumption row. *)
Definition labelled (ws : sheet) (row : nat) (label unit : string) (w : wb) : wb :=
  set_cell ws row UNIT_COL (Text unit) (set_cell ws row LABEL_COL (Text label) w).

Definition toggle_items : list (nat * string) :=
  [ (5, "Toll revenue growth method");
    (6, "Other revenue growth method");
    (7, "Opex % method");
    (8, "D&A % method");
    (9, "Cost of debt method");
    (10, "Tax rate method") ].

Definition write_toggles (w : wb) : wb :=
  foldl (λ w '(trow, tlabel),
           set_cell Assumptions trow UNIT_COL (Text "Forecast")
             (set_cell Assumptions trow LABEL_COL (Text tlabel) w))
        w toggle_items.

(** The Assumptions sheet, row by row as the script writes it: scenario
    toggles in B5..B10, column headers in row 12, drivers from row 14. *)
Definition assumptions_sheet : list (wb → wb) :=
  [ heading Assumptions 4 "SCENARIO TOGGLES";
    write_toggles;
    set_cell Assumptions 12 LABEL_COL (Text "Assumption / Driver");
    set_cell Assumptions 12 UNIT_COL (Text "Unit");
    write_fy_header Assumptions 12;
    heading Assumptions 14 "REVENUE DRIVERS";
    labelled Assumptions 15 "Toll revenue growth (input)" "%";
    _write_values Assumptions 15
      [-4.2; 15.1; 22.1; 8.7; 6.2; 5.5; 5.0; 4.5; 4.0; 3.8]%Q true;
    labelled Assumptions 16 "Toll revenue growth (active)" "%";
    _write_active_row Assumptions 16 15 "$B$5";
    labelled Assumptions 17 "Other revenue growth (input)" "%";
    _write_values Assumptions 17
      [2.0; -2.5; 6.8; -1.8; 10.4; 3.0; 3.0; 3.0; 3.0; 3.0]%Q true;
    labelled Assumptions 18 "Other revenue growth (active)" "%";
    _write_active_row Assumptions 18 17 "$B$6";
    heading Assumptions 20 "OPERATING COST DRIVERS";
    labelled Assumptions 21 "Opex as % of revenue (input)" "%";
    _write_values Assumptions 21
      [35.2; 32.5; 31.5; 30.7; 30.8; 30.5; 30.0; 29.5; 29.0; 28.8]%Q true;
    labelled Assumptions 22 "Opex as % of revenue (active)" "%";
    _write_active_row Assumptions 22 21 "$B$7";
    labelled Assumptions 23 "Employee costs as % of revenue" "%";
    _write_values Assumptions 23
      [8.5; 8.0; 7.4; 7.3; 7.2; 7.2; 7.0; 6.9; 6.8; 6.7]%Q true;
    labelled Assumptions 24 "Employee costs share of total opex" "%";
    _write_values Assumptions 24
      [24; 25; 24; 24; 23; 25; 25; 25; 25; 25]%Q true;
    labelled Assumptions 25 "Road ops share of total opex" "%";
    _write_values Assumptions 25
      [34; 33; 33; 32; 31; 33; 33; 33; 33; 33]%Q true;
    heading Assumptions 27 "DEPRECIATION & AMORTISATION";
    labelled Assumptions 28 "D&A as % of NCA (input)" "%";
    _write_values Assumptions 28
      [2.7; 2.7; 2.7; 2.7; 2.8; 2.8; 2.8; 2.8; 2.8; 2.8]%Q true;
    labelled Assumptions 29 "D&A as % of NCA (active)" "%";
    _write_active_row Assumptions 29 28 "$B$8";
    labelled Assumptions 30 "D&A allocation to PP&E" "%";
    _write_values Assumptions 30
      [40; 40; 40; 40; 40; 40; 40; 40; 40; 40]%Q true;
    labelled Assumptions 31 "D&A allocation to intangibles" "%";
    _write_values Assumptions 31
      [60; 60; 60; 60; 60; 60; 60; 60; 60; 60]%Q true;
    heading Assumptions 33 "FINANCING ASSUMPTIONS";
    labelled Assumptions 34 "Average cost of debt (input)" "%";
    _write_values Assumptions 34
      [4.6; 4.0; 4.2; 4.5; 4.6; 4.7; 4.7; 4.8; 4.8; 4.8]%Q true;
    labelled Assumptions 35 "Average cost of debt (active)" "%";
    _write_active_row Assumptions 35 34 "$B$9";
    labelled Assumptions 36 "Effective tax rate (input)" "%";
    _write_values Assumptions 36
      [-1.5; 14.0; 14.3; 14.4; 15.0; 15.0; 15.0; 15.0; 15.0; 15.0]%Q true;
    labelled Assumptions 37 "Effective tax rate (active)" "%";
    _write_active_row Assumptions 37 36 "$B$10";
    labelled Assumptions 38 "Statutory tax rate" "%";
    _write_values Assumptions 38
      [30; 30; 30; 30; 30; 30; 30; 30; 30; 30]%Q true;
    labelled Assumptions 39 "Current borrowings as % of total debt" "%";
    _write_values Assumptions 39
      [6; 5.5; 5.5; 5; 5; 5; 5; 5; 5; 5]%Q true;
    labelled Assumptions 40 "DRP / dilution rate" "%";
    _write_values Assumptions 40
      [1; 1; 1; 1; 1; 1; 1; 1; 1; 1]%Q true;
    heading Assumptions 42 "BALANCE SHEET DRIVERS";
    labelled Assumptions 43 "Capex (maintenance + growth)" "A$m";
    _write_values Assumptions 43
      [628; 1_092; 1_805; 1_420; 1_200; 1_300; 1_350; 1_400; 1_250; 1_200]%Q false;
    labelled Assumptions 44 "Trade receivables days" "days";
    _write_values Assumptions 44
      [28; 26; 25; 24; 24; 24; 24; 24; 24; 24]%Q false;
    labelled Assumptions 45 "Trade payables days" "days";
    _write_values Assumptions 45
      [55; 52; 50; 48; 48; 48; 48; 48; 48; 48]%Q false;
    labelled Assumptions 46 "Other current assets growth rate" "%";
    _write_values Assumptions 46
      [3; 3; 3; 3; 3; 3; 3; 3; 3; 3]%Q true;
    labelled Assumptions 47 "JV investments growth rate" "%";
    _write_values Assumptions 47
      [-2; -2; -2; -2; -2; -2; -2; -2; -2; -2]%Q true;
    labelled Assumptions 48 "Other NCA growth rate" "%";
    _write_values Assumptions 48
      [2; 2; 2; 2; 2; 2; 2; 2; 2; 2]%Q true;
    labelled Assumptions 49 "Other current liabilities growth rate" "%";
    _write_values Assumptions 49
      [3; 3; 3; 3; 3; 3; 3; 3; 3; 3]%Q true;
    labelled Assumptions 50 "Other NCL growth rate" "%";
    _write_values Assumptions 50
      [2; 2; 2; 2; 2; 2; 2; 2; 2; 2]%Q true;
    heading Assumptions 52 "CASH FLOW / CAPITAL STRUCTURE";
    labelled Assumptions 53 "Dividend per security (DPS)" "A¢";
    _write_values Assumptions 53
      [41.0; 53.0; 62.0; 64.5; 66.0; 68.0; 70.0; 72.0; 74.0; 76.0]%Q false;
    labelled Assumptions 54 "Securities on issue (approx)" "m";
    _write_values Assumptions 54
      [1_932; 1_948; 1_964; 1_978; 1_990; 2_000; 2_010; 2_020; 2_025; 2_030]%Q false;
    labelled Assumptions 55 "Net debt issuance / (repayment)" "A$m";
    _write_values Assumptions 55
      [1_200; 2_050; 2_800; 600; 300; 400; 350; 300; 200; 100]%Q false;
    labelled Assumptions 56 "Other operating adj. growth rate" "%";
    _write_values Assumptions 56
      [2; 2; 2; 2; 2; 2; 2; 2; 2; 2]%Q true;
    labelled Assumptions 57 "Equity issuance rate (DRP)" "%";
    _write_values Assumptions 57
      [1; 1; 1; 1; 1; 1; 1; 1; 1; 1]%Q true;
    heading Assumptions 59 "NOTES ASSUMPTIONS";
    labelled Assumptions 60 "Construction revenue growth" "%";
    _write_values Assumptions 60
      [3; 3; 3; 3; 3; 3; 3; 3; 3; 3]%Q true;
    labelled Assumptions 61 "Debt maturity 1-2yr as % of total" "%";
    _write_values Assumptions 61
      [5.3; 4.9; 4.8; 4.7; 4.2; 5; 5; 5; 5; 5]%Q true;
    labelled Assumptions 62 "Debt maturity 2-5yr as % of total" "%";
    _write_values Assumptions 62
      [25; 22; 22; 26; 26; 26; 26; 26; 26; 26]%Q true;
    labelled Assumptions 63 "Capitalised borrowing costs factor" "%";
    _write_values Assumptions 63
      [15; 15; 15; 15; 15; 15; 15; 15; 15; 15]%Q true;
    labelled Assumptions 64 "Forecast non-deductible amortisation" "A$m";
    _write_values Assumptions 64
      [190; 190; 190; 190; 190; 190; 190; 190; 190; 190]%Q false;
    labelled Assumptions 65 "Forecast tax concessions" "A$m";
    _write_values Assumptions 65
      [-40; -40; -40; -40; -40; -40; -40; -40; -40; -40]%Q false;
    labelled Assumptions 66 "Forecast other perm. differences" "A$m";
    _write_values Assumptions 66
      [8; 8; 8; 8; 8; 8; 8; 8; 8; 8]%Q false;
    labelled Assumptions 67 "Capital commitments multiple of capex" "x";
    _write_values Assumptions 67
      [1.2; 1.2; 1.2; 1.2; 1.2; 1.2; 1.2; 1.2; 1.2; 1.2]%Q false;
    labelled Assumptions 68 "Operating lease growth rate" "%";
    _write_values Assumptions 68
      [3; 3; 3; 3; 3; 3; 3; 3; 3; 3]%Q true;
    labelled Assumptions 69 "Forecast contingent liabilities" "A$m";
    _write_values Assumptions 69
      [170; 170; 170; 170; 170; 170; 170; 170; 170; 170]%Q false ].

(** Assumption rows referenced from the other sheets. *)
Definition AROW_TOLL_GR : nat := 16.
Definition AROW_OTHER_GR : nat := 18.
Definition AROW_OPEX_PCT : nat := 22.
Definition AROW_EMP_PCT : nat := 23.
Definition AROW_EMP_SHARE : nat := 24.
Definition AROW_ROAD_SHARE : nat := 25.
Definition AROW_DA_PCT : nat := 29.
Definition AROW_DA_PPE : nat := 30.
Definition AROW_DA_INTANG : nat := 31.
Definition AROW_COD : nat := 35.
Definition AROW_TAX : nat := 37.
Definition AROW_STAT_TAX : nat := 38.
Definition AROW_CURR_BORROW_PCT : nat := 39.
Definition AROW_DRP_RATE : nat := 40.
Definition AROW_CAPEX : nat := 43.
Definition AROW_REC_DAYS : nat := 44.
Definition AROW_PAY_DAYS : nat := 45.
Definition AROW_OCA_GR : nat := 46.
Definition AROW_JV_GR : nat := 47.
Definition AROW_ONCA_GR : nat := 48.
Definition AROW_OCL_GR : nat := 49.
Definition AROW_ONCL_GR : nat := 50.
Definition AROW_DPS : nat := 53.
Definition AROW_SHARES : nat := 54.
Definition AROW_NET_DEBT : nat := 55.
Definition AROW_OTHER_OPS_GR : nat := 56.
Definition AROW_EQUITY_ISS : nat := 57.
Definition AROW_CONSTR_GR : nat := 60.
Definition AROW_MAT_1_2 : nat := 61.
Definition AROW_MAT_2_5 : nat := 62.
Definition AROW_CAP_BORR : nat := 63.
Definition AROW_NON_DED : nat := 64.
Definition AROW_TAX_CONC : nat := 65.
Definition AROW_OTHER_PERM : nat := 66.
Definition AROW_CAP_COMMIT : nat := 67.
Definition AROW_OP_LEASE_GR : nat := 68.
Definition AROW_CONTINGENT : nat := 69.

(** ** Statement sheets: line items and the label-indexed row registry *)

(** A line item as the script declares it:
    [(label, unit, hist, is_section, is_total)]. *)
Record item := Item {
  label : string;
  unit_ : option string;
  hist : option (list Z);
  is_section : bool;
  is_total : bool;
}.

(** Python truthiness of an optional string ([if unit:]). *)
Definition truthy (u : option string) : bool :=
  match u with
  | Some s => negb (String.eqb s EmptyString)
  | None => false
  end.

(** The formula text of an f-string: its pieces, concatenated. *)
Definition fstring (parts : list string) : string := foldr String.append EmptyString parts.

(** [for x in xs: body], where the body may raise. *)
Fixpoint for_each {A S} (xs : list A) (body : A → S → result S) (s : S) : result S :=
  match xs with
  | [] => mret s
  | x :: xs' => s' ← body x s; for_each xs' body s'
  end.

(** [range(n)] *)
Definition range (n : nat) : list nat := seq 0 n.

(** [[a + b for a, b in zip(xs, ys)]] and its three- and four-list forms. *)
Definition zip2 (f : Z → Z → Z) (xs ys : list Z) : list Z := zip_with f xs ys.
Definition zip3 (f : Z → Z → Z → Z) (xs ys zs : list Z) : list Z :=
  zip_with (λ x '(y, z), f x y z) xs (zip ys zs).
Definition zip4 (f : Z → Z → Z → Z → Z) (ws xs ys zs : list Z) : list Z :=
  zip_with (λ w '(x, (y, z)), f w x y z) ws (zip xs (zip ys zs)).

(** One pass of the assembly loop shared by the Income Statement, Balance
    Sheet and Cash Flow sheets: write label and unit, record
    [ROW[label] = r], write the historical literals, advance [r]. *)
Definition assemble_item (ws : sheet) (st : wb * gmap string nat * nat) (it : item)
    : wb * gmap string nat * nat :=
  let '(w, ROW, r) := st in
  let w := set_cell ws r LABEL_COL (Text (label it)) w in
  let w := if truthy (unit_ it)
           then set_cell ws r UNIT_COL (Text (default EmptyString (unit_ it))) w
           else w in
  let ROW := <[label it := r]> ROW in
  let w := match hist it with
           | Some vs =>
               foldl (λ w '(i, v), set_cell ws r (HIST_START + i) (Num (inject_Z v)) w)
                     w (enumerate vs)
           | None => w
           end in
  (w, ROW, r + 1).

Definition assemble (ws : sheet) (items : list item) (start : nat) (w : wb)
    : wb * gmap string nat * nat :=
  foldl (assemble_item ws) (w, ∅, start) items.

(** [{lbl: 5 + i for i, lbl in enumerate(labels)}] *)
Definition row_map (labels : list string) : gmap string nat :=
  foldl (λ m '(i, lbl), <[lbl := 5 + i]> m) ∅ (enumerate labels).

(** ** 2. Income Statement *)

Definition hist_toll_rev : list Z := [2459; 2830; 3455; 3756; 3990]%Z.
Definition hist_other_rev : list Z := [319; 311; 332; 326; 360]%Z.
Definition hist_total_rev : list Z := zip2 Z.add hist_toll_rev hist_other_rev.

Definition hist_employee : list Z := [-236; -251; -280; -298; -313]%Z.
Definition hist_road_ops : list Z := [-340; -333; -380; -395; -418]%Z.
Definition hist_corp_admin : list Z := [-401; -436; -535; -562; -608]%Z.
Definition hist_total_opex : list Z :=
  zip3 (λ e ro ca, e + ro + ca)%Z hist_employee hist_road_ops hist_corp_admin.

Definition hist_ebitda : list Z := zip2 Z.add hist_total_rev hist_total_opex.
Definition hist_da : list Z := [-856; -880; -905; -930; -958]%Z.
Definition hist_ebit : list Z := zip2 Z.add hist_ebitda hist_da.

Definition hist_net_finance : list Z := [-907; -821; -963; -1093; -1150]%Z.
Definition hist_pbt : list Z := zip2 Z.add hist_ebit hist_net_finance.
Definition hist_tax : list Z := [7; -141; -270; -249; -282]%Z.
Definition hist_npat : list Z := zip2 Z.add hist_pbt hist_tax.

Definition IS_START : nat := 5.

Definition is_items : list item :=
  [ Item "Revenue" None None true false;
    Item "Toll revenue" (Some "A$m") (Some hist_toll_rev) false false;
    Item "Other revenue" (Some "A$m") (Some hist_other_rev) false false;
    Item "Total Revenue" (Some "A$m") (Some hist_total_rev) false true;
    Item EmptyString None None false false;
    Item "Operating Expenses" None None true false;
    Item "Employee costs" (Some "A$m") (Some hist_employee) false false;
    Item "Road operating costs" (Some "A$m") (Some hist_road_ops) false false;
    Item "Corporate & admin costs" (Some "A$m") (Some hist_corp_admin) false false;
    Item "Total Operating Expenses" (Some "A$m") (Some hist_total_opex) false true;
    Item EmptyString None None false false;
    Item "EBITDA" (Some "A$m") (Some hist_ebitda) false true;
    Item "Depreciation & amortisation" (Some "A$m") (Some hist_da) false false;
    Item "EBIT" (Some "A$m") (Some hist_ebit) false true;
    Item EmptyString None None false false;
    Item "Net finance costs" (Some "A$m") (Some hist_net_finance) false false;
    Item "Profit / (Loss) before tax" (Some "A$m") (Some hist_pbt) false true;
    Item "Income tax (expense) / benefit" (Some "A$m") (Some hist_tax) false false;
    Item "Net Profit / (Loss) After Tax" (Some "A$m") (Some hist_npat) false true ].

(** Row positions of the Balance Sheet and Cash Flow sheets, computed from
    label lists before those sheets exist. *)
Definition _bs_labels : list string :=
  [ "ASSETS"; "Current Assets"; "Cash & cash equivalents";
    "Trade & other receivables"; "Other current assets"; "Total Current Assets";
    EmptyString; "Non-Current Assets"; "Property, plant & equipment";
    "Intangible assets (concessions)"; "Investments in joint ventures";
    "Other non-current assets"; "Total Non-Current Assets"; EmptyString;
    "Total Assets"; EmptyString; "LIABILITIES"; "Current Liabilities";
    "Trade & other payables"; "Current borrowings"; "Other current liabilities";
    "Total Current Liabilities"; EmptyString; "Non-Current Liabilities";
    "Non-current borrowings"; "Other non-current liabilities";
    "Total Non-Current Liabilities";
    "Total Borrowings (current + non-current)"; EmptyString; "Total Liabilities";
    EmptyString; "EQUITY"; "Share capital"; "Retained earnings / (losses)";
    "Reserves"; "Total Equity"; EmptyString; "Total Liabilities & Equity";
    EmptyString; "Balance Sheet Check (Assets - L&E)" ].

Definition _cf_labels : list string :=
  [ "OPERATING ACTIVITIES"; "Net profit / (loss) after tax"; "Add back: D&A";
    "Changes in working capital"; "Other operating adjustments";
    "Net Cash from Operating Activities"; EmptyString;
    "INVESTING ACTIVITIES"; "Capital expenditure"; "Other investing activities";
    "Net Cash from Investing Activities"; EmptyString;
    "FINANCING ACTIVITIES"; "Proceeds from / (repayment of) borrowings";
    "Dividends / distributions paid"; "Equity issuance (DRP & placements)";
    "Net Cash from Financing Activities"; EmptyString;
    "Net increase / (decrease) in cash"; "FX & other adjustments";
    "Opening cash balance"; "Closing Cash Balance" ].

(** A formula cell: [ws.cell(row=.., column=.., value=f"...")]. *)
Definition put (ws : sheet) (row col : nat) (parts : list string) (w : wb) : wb :=
  set_cell ws row col (Text (fstring parts)) w.

(** The body of the Income Statement forecast loop, for one forecast year. *)
Definition is_forecast_body (IS_ROW : gmap string nat) (BS_NCA_ROW BS_DEBT_ROW : nat)
    (fc_idx : nat) (w : wb) : result wb :=
  let col := FC_START + fc_idx in
  let prev_col_letter := get_column_letter (col - 1) in
  let assum_col_letter := get_column_letter col in
  row_tr ← getitem IS_ROW "Toll revenue";
  let w := put IncomeStatement row_tr col
    ["="; prev_col_letter; str row_tr; "*(1+Assumptions!"; assum_col_letter; str AROW_TOLL_GR; ")"] w in
  row_or ← getitem IS_ROW "Other revenue";
  let w := put IncomeStatement row_or col
    ["="; prev_col_letter; str row_or; "*(1+Assumptions!"; assum_col_letter; str AROW_OTHER_GR; ")"] w in
  row_trev ← getitem IS_ROW "Total Revenue";
  let w := put IncomeStatement row_trev col
    ["="; get_column_letter col; str row_tr; "+"; get_column_letter col; str row_or] w in
  row_emp ← getitem IS_ROW "Employee costs";
  row_road ← getitem IS_ROW "Road operating costs";
  row_corp ← getitem IS_ROW "Corporate & admin costs";
  row_topex ← getitem IS_ROW "Total Operating Expenses";
  let cl := get_column_letter col in
  let w := put IncomeStatement row_emp col
    ["=-"; cl; str row_trev; "*Assumptions!"; cl; str AROW_OPEX_PCT;
     "*Assumptions!"; cl; str AROW_EMP_SHARE] w in
  let w := put IncomeStatement row_road col
    ["=-"; cl; str row_trev; "*Assumptions!"; cl; str AROW_OPEX_PCT;
     "*Assumptions!"; cl; str AROW_ROAD_SHARE] w in
  let w := put IncomeStatement row_corp col
    ["=-"; cl; str row_trev; "*Assumptions!"; cl; str AROW_OPEX_PCT;
     "-"; cl; str row_emp; "-"; cl; str row_road] w in
  let w := put IncomeStatement row_topex col
    ["="; cl; str row_emp; "+"; cl; str row_road; "+"; cl; str row_corp] w in
  row_ebitda ← getitem IS_ROW "EBITDA";
  let w := put IncomeStatement row_ebitda col
    ["="; cl; str row_trev; "+"; cl; str row_topex] w in
  row_da ← getitem IS_ROW "Depreciation & amortisation";
  let prev_cl := get_column_letter (col - 1) in
  let w := put IncomeStatement row_da col
    ["=-'Balance Sheet'!"; prev_cl; str BS_NCA_ROW; "*Assumptions!"; cl; str AROW_DA_PCT] w in
  row_ebit ← getitem IS_ROW "EBIT";
  let w := put IncomeStatement row_ebit col
    ["="; cl; str row_ebitda; "+"; cl; str row_da] w in
  row_nfc ← getitem IS_ROW "Net finance costs";
  let w := put IncomeStatement row_nfc col
    ["=-'Balance Sheet'!"; prev_cl; str BS_DEBT_ROW; "*Assumptions!"; cl; str AROW_COD] w in
  row_pbt ← getitem IS_ROW "Profit / (Loss) before tax";
  let w := put IncomeStatement row_pbt col
    ["="; cl; str row_ebit; "+"; cl; str row_nfc] w in
  row_tax ← getitem IS_ROW "Income tax (expense) / benefit";
  let w := put IncomeStatement row_tax col
    ["=-"; cl; str row_pbt; "*Assumptions!"; cl; str AROW_TAX] w in
  row_npat ← getitem IS_ROW "Net Profit / (Loss) After Tax";
  let w := put IncomeStatement row_npat col
    ["="; cl; str row_pbt; "+"; cl; str row_tax] w in
  mret w.

(** ** 3. Balance Sheet *)

Definition hist_cash : list Z := [2548; 3145; 2780; 2350; 2520]%Z.
Definition hist_recv : list Z := [213; 224; 260; 269; 286]%Z.
Definition hist_other_ca : list Z := [195; 210; 225; 230; 240]%Z.
Definition hist_total_ca : list Z :=
  zip3 (λ c rc o, c + rc + o)%Z hist_cash hist_recv hist_other_ca.

Definition hist_ppe : list Z := [6125; 6850; 7900; 8100; 8050]%Z.
Definition hist_intangibles : list Z := [22450; 23100; 24200; 24650; 24800]%Z.
Definition hist_invest_jv : list Z := [1820; 1750; 1680; 1620; 1580]%Z.
Definition hist_other_nca : list Z := [1250; 1380; 1520; 1580; 1620]%Z.
Definition hist_total_nca : list Z :=
  zip4 (λ p ig j o, p + ig + j + o)%Z hist_ppe hist_intangibles hist_invest_jv hist_other_nca.

Definition hist_total_assets : list Z := zip2 Z.add hist_total_ca hist_total_nca.

Definition hist_payables : list Z := [485; 510; 555; 530; 550]%Z.
Definition hist_current_debt : list Z := [1250; 1400; 1600; 1300; 1200]%Z.
Definition hist_other_cl : list Z := [580; 620; 680; 710; 740]%Z.
Definition hist_total_cl : list Z :=
  zip3 (λ p d o, p + d + o)%Z hist_payables hist_current_debt hist_other_cl.

Definition hist_nc_debt : list Z := [19580; 21230; 23430; 23730; 23830]%Z.
Definition hist_total_borrow : list Z := zip2 Z.add hist_current_debt hist_nc_debt.
Definition hist_other_ncl : list Z := [2350; 2480; 2620; 2700; 2780]%Z.
Definition hist_total_ncl : list Z := zip2 Z.add hist_nc_debt hist_other_ncl.

Definition hist_total_liab : list Z := zip2 Z.add hist_total_cl hist_total_ncl.

Definition hist_share_cap : list Z := [13845; 14250; 14680; 15020; 15310]%Z.
Definition hist_reserves : list Z := [358; 380; 380; 400; 412]%Z.
(** Retained earnings is the balancing plug so that Assets = L&E exactly. *)
Definition hist_retained : list Z :=
  zip4 (λ ta tl sc rs, ta - tl - sc - rs)%Z
       hist_total_assets hist_total_liab hist_share_cap hist_reserves.
Definition hist_total_eq : list Z :=
  zip3 (λ s re rs, s + re + rs)%Z hist_share_cap hist_retained hist_reserves.

Definition hist_total_le : list Z := zip2 Z.add hist_total_liab hist_total_eq.

Definition bs_items : list item :=
  [ Item "ASSETS" None None true false;
    Item "Current Assets" None None true false;
    Item "Cash & cash equivalents" (Some "A$m") (Some hist_cash) false false;
    Item "Trade & other receivables" (Some "A$m") (Some hist_recv) false false;
    Item "Other current assets" (Some "A$m") (Some hist_other_ca) false false;
    Item "Total Current Assets" (Some "A$m") (Some hist_total_ca) false true;
    Item EmptyString None None false false;
    Item "Non-Current Assets" None None true false;
    Item "Property, plant & equipment" (Some "A$m") (Some hist_ppe) false false;
    Item "Intangible assets (concessions)" (Some "A$m") (Some hist_intangibles) false false;
    Item "Investments in joint ventures" (Some "A$m") (Some hist_invest_jv) false false;
    Item "Other non-current assets" (Some "A$m") (Some hist_other_nca) false false;
    Item "Total Non-Current Assets" (Some "A$m") (Some hist_total_nca) false true;
    Item EmptyString None None false false;
    Item "Total Assets" (Some "A$m") (Some hist_total_assets) false true;
    Item EmptyString None None false false;
    Item "LIABILITIES" None None true false;
    Item "Current Liabilities" None None true false;
    Item "Trade & other payables" (Some "A$m") (Some hist_payables) false false;
    Item "Current borrowings" (Some "A$m") (Some hist_current_debt) false false;
    Item "Other current liabilities" (Some "A$m") (Some hist_other_cl) false false;
    Item "Total Current Liabilities" (Some "A$m") (Some hist_total_cl) false true;
    Item EmptyString None None false false;
    Item "Non-Current Liabilities" None None true false;
    Item "Non-current borrowings" (Some "A$m") (Some hist_nc_debt) false false;
    Item "Other non-current liabilities" (Some "A$m") (Some hist_other_ncl) false false;
    Item "Total Non-Current Liabilities" (Some "A$m") (Some hist_total_ncl) false true;
    Item "Total Borrowings (current + non-current)" (Some "A$m") (Some hist_total_borrow) false true;
    Item EmptyString None None false false;
    Item "Total Liabilities" (Some "A$m") (Some hist_total_liab) false true;
    Item EmptyString None None false false;
    Item "EQUITY" None None true false;
    Item "Share capital" (Some "A$m") (Some hist_share_cap) false false;
    Item "Retained earnings / (losses)" (Some "A$m") (Some hist_retained) false false;
    Item "Reserves" (Some "A$m") (Some hist_reserves) false false;
    Item "Total Equity" (Some "A$m") (Some hist_total_eq) false true;
    Item EmptyString None None false false;
    Item "Total Liabilities & Equity" (Some "A$m") (Some hist_total_le) false true;
    Item EmptyString None None false false;
    Item "Balance Sheet Check (Assets - L&E)" (Some "A$m") None false true ].

(** The Balance Sheet rows looked up once, before the forecast loop. *)
Record bs_rows := BsRows {
  row_cash : nat; row_recv : nat; row_oca : nat; row_tca : nat;
  row_ppe : nat; row_intang : nat; row_jv : nat; row_onca : nat;
  row_tnca : nat; row_ta : nat;
  row_pay : nat; row_cd : nat; row_ocl : nat; row_tcl : nat;
  row_ncd : nat; row_oncl : nat; row_tncl : nat; row_tb : nat; row_tl : nat;
  row_sc : nat; row_re : nat; row_rsv : nat; row_teq : nat; row_tle : nat;
  row_check : nat;
}.

(** The historical check formulas, columns C to G. *)
Definition bs_hist_check (row_ta row_tle row_check : nat) (w : wb) : wb :=
  foldl (λ w col,
           let cl := get_column_letter col in
           put BalanceSheet row_check col ["="; cl; str row_ta; "-"; cl; str row_tle] w)
        w (seq HIST_START (HIST_END + 1 - HIST_START)).

(** The body of the Balance Sheet forecast loop, for one forecast year. *)
Definition bs_forecast_body (R : bs_rows) (IS_ROW : gmap string nat)
    (IS_ROW_NPAT IS_ROW_DA IS_ROW_TREV CF_CLOSE_CASH_ROW : nat)
    (fc_idx : nat) (w : wb) : result wb :=
  let col := FC_START + fc_idx in
  let cl := get_column_letter col in
  let prev_cl := get_column_letter (col - 1) in
  (* -- ASSETS -- *)
  let w := put BalanceSheet (row_cash R) col
    ["='Cash Flow Statement'!"; cl; str CF_CLOSE_CASH_ROW] w in
  let w := put BalanceSheet (row_recv R) col
    ["='Income Statement'!"; cl; str IS_ROW_TREV; "/365*Assumptions!"; cl; str AROW_REC_DAYS] w in
  let w := put BalanceSheet (row_oca R) col
    ["="; prev_cl; str (row_oca R); "*(1+Assumptions!"; cl; str AROW_OCA_GR; ")"] w in
  let w := put BalanceSheet (row_tca R) col
    ["="; cl; str (row_cash R); "+"; cl; str (row_recv R); "+"; cl; str (row_oca R)] w in
  let w := put BalanceSheet (row_ppe R) col
    ["="; prev_cl; str (row_ppe R); "+Assumptions!"; cl; str AROW_CAPEX;
     "+'Income Statement'!"; cl; str IS_ROW_DA; "*Assumptions!"; cl; str AROW_DA_PPE] w in
  let w := put BalanceSheet (row_intang R) col
    ["="; prev_cl; str (row_intang R); "+'Income Statement'!"; cl; str IS_ROW_DA;
     "*Assumptions!"; cl; str AROW_DA_INTANG] w in
  let w := put BalanceSheet (row_jv R) col
    ["="; prev_cl; str (row_jv R); "*(1+Assumptions!"; cl; str AROW_JV_GR; ")"] w in
  let w := put BalanceSheet (row_onca R) col
    ["="; prev_cl; str (row_onca R); "*(1+Assumptions!"; cl; str AROW_ONCA_GR; ")"] w in
  let w := put BalanceSheet (row_tnca R) col
    ["="; cl; str (row_ppe R); "+"; cl; str (row_intang R); "+"; cl; str (row_jv R);
     "+"; cl; str (row_onca R)] w in
  let w := put BalanceSheet (row_ta R) col
    ["="; cl; str (row_tca R); "+"; cl; str (row_tnca R)] w in
  (* -- LIABILITIES -- *)
  IS_ROW_TOPEX ← getitem IS_ROW "Total Operating Expenses";
  let w := put BalanceSheet (row_pay R) col
    ["=-'Income Statement'!"; cl; str IS_ROW_TOPEX; "/365*Assumptions!"; cl; str AROW_PAY_DAYS] w in
  let w := put BalanceSheet (row_cd R) col
    ["=("; prev_cl; str (row_tb R); "+Assumptions!"; cl; str AROW_NET_DEBT;
     ")*Assumptions!"; cl; str AROW_CURR_BORROW_PCT] w in
  let w := put BalanceSheet (row_ocl R) col
    ["="; prev_cl; str (row_ocl R); "*(1+Assumptions!"; cl; str AROW_OCL_GR; ")"] w in
  let w := put BalanceSheet (row_tcl R) col
    ["="; cl; str (row_pay R); "+"; cl; str (row_cd R); "+"; cl; str (row_ocl R)] w in
  let w := put BalanceSheet (row_ncd R) col
    ["="; prev_cl; str (row_tb R); "+Assumptions!"; cl; str AROW_NET_DEBT;
     "-"; cl; str (row_cd R)] w in
  let w := put BalanceSheet (row_oncl R) col
    ["="; prev_cl; str (row_oncl R); "*(1+Assumptions!"; cl; str AROW_ONCL_GR; ")"] w in
  let w := put BalanceSheet (row_tncl R) col
    ["="; cl; str (row_ncd R); "+"; cl; str (row_oncl R)] w in
  let w := put BalanceSheet (row_tb R) col
    ["="; cl; str (row_cd R); "+"; cl; str (row_ncd R)] w in
  let w := put BalanceSheet (row_tl R) col
    ["="; cl; str (row_tcl R); "+"; cl; str (row_tncl R)] w in
  (* -- EQUITY -- *)
  let w := put BalanceSheet (row_sc R) col
    ["="; prev_cl; str (row_sc R); "*(1+Assumptions!"; cl; str AROW_DRP_RATE; ")"] w in
  let w := put BalanceSheet (row_re R) col
    ["="; prev_cl; str (row_re R); "+'Income Statement'!"; cl; str IS_ROW_NPAT;
     "-Assumptions!"; cl; str AROW_DPS; "*Assumptions!"; cl; str AROW_SHARES; "/100"] w in
  let w := put BalanceSheet (row_rsv R) col
    ["="; prev_cl; str (row_rsv R)] w in
  let w := put BalanceSheet (row_teq R) col
    ["="; cl; str (row_sc R); "+"; cl; str (row_re R); "+"; cl; str (row_rsv R)] w in
  let w := put BalanceSheet (row_tle R) col
    ["="; cl; str (row_tl R); "+"; cl; str (row_teq R)] w in
  let w := put BalanceSheet (row_check R) col
    ["="; cl; str (row_ta R); "-"; cl; str (row_tle R)] w in
  mret w.

(** Lookups and forecast loop of the Balance Sheet section. *)
Definition bs_forecast (BS_ROW IS_ROW : gmap string nat) (row_check : nat)
    (CF_CLOSE_CASH_ROW : nat) (w : wb) : result (bs_rows * wb) :=
  row_cash ← getitem BS_ROW "Cash & cash equivalents";
  row_recv ← getitem BS_ROW "Trade & other receivables";
  row_oca ← getitem BS_ROW "Other current assets";
  row_tca ← getitem BS_ROW "Total Current Assets";
  row_ppe ← getitem BS_ROW "Property, plant & equipment";
  row_intang ← getitem BS_ROW "Intangible assets (concessions)";
  row_jv ← getitem BS_ROW "Investments in joint ventures";
  row_onca ← getitem BS_ROW "Other non-current assets";
  row_tnca ← getitem BS_ROW "Total Non-Current Assets";
  row_ta ← getitem BS_ROW "Total Assets";
  row_pay ← getitem BS_ROW "Trade & other payables";
  row_cd ← getitem BS_ROW "Current borrowings";
  row_ocl ← getitem BS_ROW "Other current liabilities";
  row_tcl ← getitem BS_ROW "Total Current Liabilities";
  row_ncd ← getitem BS_ROW "Non-current borrowings";
  row_oncl ← getitem BS_ROW "Other non-current liabilities";
  row_tncl ← getitem BS_ROW "Total Non-Current Liabilities";
  row_tb ← getitem BS_ROW "Total Borrowings (current + non-current)";
  row_tl ← getitem BS_ROW "Total Liabilities";
  row_sc ← getitem BS_ROW "Share capital";
  row_re ← getitem BS_ROW "Retained earnings / (losses)";
  row_rsv ← getitem BS_ROW "Reserves";
  row_teq ← getitem BS_ROW "Total Equity";
  row_tle ← getitem BS_ROW "Total Liabilities & Equity";
  IS_ROW_NPAT ← getitem IS_ROW "Net Profit / (Loss) After Tax";
  IS_ROW_DA ← getitem IS_ROW "Depreciation & amortisation";
  IS_ROW_TREV ← getitem IS_ROW "Total Revenue";
  let R := BsRows row_cash row_recv row_oca row_tca row_ppe row_intang row_jv row_onca
                  row_tnca row_ta row_pay row_cd row_ocl row_tcl row_ncd row_oncl
                  row_tncl row_tb row_tl row_sc row_re row_rsv row_teq row_tle row_check in
  w ← for_each (range 5)
        (bs_forecast_body R IS_ROW IS_ROW_NPAT IS_ROW_DA IS_ROW_TREV CF_CLOSE_CASH_ROW) w;
  mret (R, w).

(** ** 4. Cash Flow Statement *)

Definition hist_cfo_npat : list Z := hist_npat.
Definition hist_cfo_da : list Z := (λ x, - x)%Z <$> hist_da.
Definition hist_wc_change : list Z := [-45; 30; -60; 25; -15]%Z.
Definition hist_other_ops : list Z := [120; 135; 150; 160; 170]%Z.
Definition hist_net_cfo : list Z :=
  zip4 (λ np da wc oth, np + da + wc + oth)%Z
       hist_cfo_npat hist_cfo_da hist_wc_change hist_other_ops.

Definition hist_capex : list Z := [-628; -1092; -1805; -1420; -1200]%Z.
Definition hist_other_inv : list Z := [-150; -80; -120; -100; -90]%Z.
Definition hist_net_cfi : list Z := zip2 Z.add hist_capex hist_other_inv.

Definition hist_debt_proc : list Z := [1200; 2050; 2800; 600; 300]%Z.
Definition hist_div_paid : list Z := [-792; -1032; -1218; -1276; -1313]%Z.
Definition hist_equity_iss : list Z := [405; 450; 430; 340; 290]%Z.
Definition hist_net_cff : list Z :=
  zip3 (λ dp dv eq, dp + dv + eq)%Z hist_debt_proc hist_div_paid hist_equity_iss.

Definition hist_net_change : list Z :=
  zip3 (λ o i f, o + i + f)%Z hist_net_cfo hist_net_cfi hist_net_cff.
(** Opening cash: FY20 closing cash, then each year's prior closing cash. *)
Definition hist_open_cash : list Z :=
  foldl (λ acc k, acc ++ [default 0%Z (hist_cash !! k)]) [2285%Z] (range 4).
(** FX & other = closing cash (BS) - opening cash - net change. *)
Definition hist_fx_other : list Z :=
  zip3 (λ c oc nc, c - oc - nc)%Z hist_cash hist_open_cash hist_net_change.

Definition cf_items : list item :=
  [ Item "OPERATING ACTIVITIES" None None true false;
    Item "Net profit / (loss) after tax" (Some "A$m") (Some hist_cfo_npat) false false;
    Item "Add back: D&A" (Some "A$m") (Some hist_cfo_da) false false;
    Item "Changes in working capital" (Some "A$m") (Some hist_wc_change) false false;
    Item "Other operating adjustments" (Some "A$m") (Some hist_other_ops) false false;
    Item "Net Cash from Operating Activities" (Some "A$m") (Some hist_net_cfo) false true;
    Item EmptyString None None false false;
    Item "INVESTING ACTIVITIES" None None true false;
    Item "Capital expenditure" (Some "A$m") (Some hist_capex) false false;
    Item "Other investing activities" (Some "A$m") (Some hist_other_inv) false false;
    Item "Net Cash from Investing Activities" (Some "A$m") (Some hist_net_cfi) false true;
    Item EmptyString None None false false;
    Item "FINANCING ACTIVITIES" None None true false;
    Item "Proceeds from / (repayment of) borrowings" (Some "A$m") (Some hist_debt_proc) false false;
    Item "Dividends / distributions paid" (Some "A$m") (Some hist_div_paid) false false;
    Item "Equity issuance (DRP & placements)" (Some "A$m") (Some hist_equity_iss) false false;
    Item "Net Cash from Financing Activities" (Some "A$m") (Some hist_net_cff) false true;
    Item EmptyString None None false false;
    Item "Net increase / (decrease) in cash" (Some "A$m") (Some hist_net_change) false true;
    Item "FX & other adjustments" (Some "A$m") (Some hist_fx_other) false false;
    Item "Opening cash balance" (Some "A$m") (Some hist_open_cash) false false;
    Item "Closing Cash Balance" (Some "A$m") (Some hist_cash) false true ].

(** The Cash Flow rows looked up once, before the forecast loop. *)
Record cf_rows := CfRows {
  cf_npat_row : nat; cf_da_row : nat; cf_wc_row : nat; cf_other_ops_row : nat;
  cf_net_ops_row : nat; cf_capex_row : nat; cf_other_inv_row : nat; cf_net_inv_row : nat;
  cf_debt_row : nat; cf_div_row : nat; cf_equity_row : nat; cf_net_fin_row : nat;
  cf_net_change_row : nat; cf_fx_row : nat; cf_open_row : nat; cf_close_row : nat;
}.

(** The body of the Cash Flow forecast loop, for one forecast year.  The
    Balance Sheet rows [R] and the two Income Statement rows are the ones
    bound in the Balance Sheet section. *)
Definition cf_forecast_body (C : cf_rows) (R : bs_rows) (IS_ROW_NPAT IS_ROW_DA : nat)
    (fc_idx : nat) (w : wb) : wb :=
  let col := FC_START + fc_idx in
  let cl := get_column_letter col in
  let prev_cl := get_column_letter (col - 1) in
  (* -- OPERATING -- *)
  let w := put CashFlowStatement (cf_npat_row C) col
    ["='Income Statement'!"; cl; str IS_ROW_NPAT] w in
  let w := put CashFlowStatement (cf_da_row C) col
    ["=-'Income Statement'!"; cl; str IS_ROW_DA] w in
  let w := put CashFlowStatement (cf_wc_row C) col
    ["=-('Balance Sheet'!"; cl; str (row_recv R); "-'Balance Sheet'!"; prev_cl; str (row_recv R);
     ")+('Balance Sheet'!"; cl; str (row_pay R); "-'Balance Sheet'!"; prev_cl; str (row_pay R);
     ")"] w in
  let w := put CashFlowStatement (cf_other_ops_row C) col
    ["="; prev_cl; str (cf_other_ops_row C); "*(1+Assumptions!"; cl; str AROW_OTHER_OPS_GR; ")"] w in
  let w := put CashFlowStatement (cf_net_ops_row C) col
    ["="; cl; str (cf_npat_row C); "+"; cl; str (cf_da_row C); "+"; cl; str (cf_wc_row C);
     "+"; cl; str (cf_other_ops_row C)] w in
  (* -- INVESTING -- *)
  let w := put CashFlowStatement (cf_capex_row C) col
    ["=-Assumptions!"; cl; str AROW_CAPEX] w in
  let w := put CashFlowStatement (cf_other_inv_row C) col
    ["="; prev_cl; str (cf_other_inv_row C)] w in
  let w := put CashFlowStatement (cf_net_inv_row C) col
    ["="; cl; str (cf_capex_row C); "+"; cl; str (cf_other_inv_row C)] w in
  (* -- FINANCING -- *)
  let w := put CashFlowStatement (cf_debt_row C) col
    ["=Assumptions!"; cl; str AROW_NET_DEBT] w in
  let w := put CashFlowStatement (cf_div_row C) col
    ["=-Assumptions!"; cl; str AROW_DPS; "*Assumptions!"; cl; str AROW_SHARES; "/100"] w in
  let w := put CashFlowStatement (cf_equity_row C) col
    ["='Balance Sheet'!"; prev_cl; str (row_sc R); "*Assumptions!"; cl; str AROW_EQUITY_ISS] w in
  let w := put CashFlowStatement (cf_net_fin_row C) col
    ["="; cl; str (cf_debt_row C); "+"; cl; str (cf_div_row C); "+"; cl; str (cf_equity_row C)] w in
  let w := put CashFlowStatement (cf_net_change_row C) col
    ["="; cl; str (cf_net_ops_row C); "+"; cl; str (cf_net_inv_row C); "+"; cl;
     str (cf_net_fin_row C)] w in
  (* FX / other: assume nil in forecast *)
  let w := set_cell CashFlowStatement (cf_fx_row C) col (Num 0) w in
  let w := put CashFlowStatement (cf_open_row C) col
    ["='Balance Sheet'!"; prev_cl; str (row_cash R)] w in
  let w := put CashFlowStatement (cf_close_row C) col
    ["="; cl; str (cf_open_row C); "+"; cl; str (cf_net_change_row C); "+"; cl;
     str (cf_fx_row C)] w in
  w.

(** Lookups and forecast loop of the Cash Flow section. *)
Definition cf_forecast (CF_ROW : gmap string nat) (R : bs_rows) (IS_ROW_NPAT IS_ROW_DA : nat)
    (w : wb) : result wb :=
  cf_npat_row ← getitem CF_ROW "Net profit / (loss) after tax";
  cf_da_row ← getitem CF_ROW "Add back: D&A";
  cf_wc_row ← getitem CF_ROW "Changes in working capital";
  cf_other_ops_row ← getitem CF_ROW "Other operating adjustments";
  cf_net_ops_row ← getitem CF_ROW "Net Cash from Operating Activities";
  cf_capex_row ← getitem CF_ROW "Capital expenditure";
  cf_other_inv_row ← getitem CF_ROW "Other investing activities";
  cf_net_inv_row ← getitem CF_ROW "Net Cash from Investing Activities";
  cf_debt_row ← getitem CF_ROW "Proceeds from / (repayment of) borrowings";
  cf_div_row ← getitem CF_ROW "Dividends / distributions paid";
  cf_equity_row ← getitem CF_ROW "Equity issuance (DRP & placements)";
  cf_net_fin_row ← getitem CF_ROW "Net Cash from Financing Activities";
  cf_net_change_row ← getitem CF_ROW "Net increase / (decrease) in cash";
  cf_fx_row ← getitem CF_ROW "FX & other adjustments";
  cf_open_row ← getitem CF_ROW "Opening cash balance";
  cf_close_row ← getitem CF_ROW "Closing Cash Balance";
  let C := CfRows cf_npat_row cf_da_row cf_wc_row cf_other_ops_row cf_net_ops_row
                  cf_capex_row cf_other_inv_row cf_net_inv_row cf_debt_row cf_div_row
                  cf_equity_row cf_net_fin_row cf_net_change_row cf_fx_row cf_open_row
                  cf_close_row in
  mret (foldl (λ w fc_idx, cf_forecast_body C R IS_ROW_NPAT IS_ROW_DA fc_idx w) w (range 5)).

(** ** 5. Notes to the financial statements *)

Definition hist_construction_rev : list Z := [180; 320; 540; 420; 350]%Z.

Definition hist_melb_rev : list Z := [820; 920; 1080; 1150; 1220]%Z.
Definition hist_melb_ebitda : list Z := [620; 710; 840; 900; 960]%Z.
Definition hist_syd_rev : list Z := [1050; 1220; 1520; 1680; 1800]%Z.
Definition hist_syd_ebitda : list Z := [750; 890; 1120; 1250; 1350]%Z.
Definition hist_bris_rev : list Z := [430; 480; 560; 600; 640]%Z.
Definition hist_bris_ebitda : list Z := [310; 350; 410; 440; 470]%Z.
Definition hist_na_rev : list Z := [478; 521; 627; 652; 690]%Z.
Definition hist_na_ebitda : list Z := [120; 150; 205; 230; 260]%Z.

Definition hist_intang_opening : list Z := [22100; 22630; 23310; 24460; 25340]%Z.
Definition hist_intang_additions : list Z := [530; 680; 1150; 880; 720]%Z.

Definition hist_maturity_1_2yr : list Z := [1100; 1250; 1400; 1150; 1050]%Z.
Definition hist_maturity_2_5yr : list Z := [5200; 5650; 6300; 6400; 6500]%Z.

Definition hist_cap_borrow_costs : list Z := [45; 78; 125; 95; 80]%Z.

Definition hist_non_ded_amort : list Z := [215; 210; 205; 195; 190]%Z.
Definition hist_tax_concessions : list Z := [-50; -48; -45; -42; -40]%Z.
Definition hist_other_perm_diff : list Z := [25; 20; 15; 10; 8]%Z.

Definition hist_cap_commit : list Z := [2800; 3200; 2500; 1800; 1500]%Z.
Definition hist_op_lease_commit : list Z := [85; 90; 95; 100; 105]%Z.
Definition hist_contingent_liab : list Z := [150; 150; 160; 160; 170]%Z.

(** The third field of a note item: a list of literals, a string naming
    the kind of formula written later, or [None]. *)
Inductive note_data :=
  | Lit (vs : list Z)
  | Tag (s : string)
  | NoData.

(** [(label, unit, data, is_section, is_total, is_check)] *)
Record note_item := NoteItem {
  n_label : string;
  n_unit : option string;
  n_data : note_data;
  n_is_section : bool;
  n_is_total : bool;
  n_is_check : bool;
}.

Definition notes_items : list note_item :=
  [ (* Note 1: Revenue Breakdown *)
    NoteItem "REVENUE BREAKDOWN" None NoData true false false;
    NoteItem "Toll revenue" (Some "A$m") (Tag "link_is_toll") false false false;
    NoteItem "Construction revenue" (Some "A$m") (Lit hist_construction_rev) false false false;
    NoteItem "Other revenue" (Some "A$m") (Tag "link_is_other") false false false;
    NoteItem "Total Revenue" (Some "A$m") (Tag "link_is_total_rev") false true false;
    NoteItem EmptyString None NoData false false false;
    (* Note 2: Segment Reporting *)
    NoteItem "SEGMENT REPORTING" None NoData true false false;
    NoteItem "Melbourne (CityLink)" None NoData false false false;
    NoteItem "  Revenue" (Some "A$m") (Lit hist_melb_rev) false false false;
    NoteItem "  EBITDA" (Some "A$m") (Lit hist_melb_ebitda) false false false;
    NoteItem "Sydney" None NoData false false false;
    NoteItem "  Revenue" (Some "A$m") (Lit hist_syd_rev) false false false;
    NoteItem "  EBITDA" (Some "A$m") (Lit hist_syd_ebitda) false false false;
    NoteItem "Brisbane" None NoData false false false;
    NoteItem "  Revenue" (Some "A$m") (Lit hist_bris_rev) false false false;
    NoteItem "  EBITDA" (Some "A$m") (Lit hist_bris_ebitda) false false false;
    NoteItem "North America" None NoData false false false;
    NoteItem "  Revenue" (Some "A$m") (Lit hist_na_rev) false false false;
    NoteItem "  EBITDA" (Some "A$m") (Lit hist_na_ebitda) false false false;
    NoteItem "Total segment revenue" (Some "A$m") (Tag "sum_segment_rev") false true false;
    NoteItem "Total segment EBITDA" (Some "A$m") (Tag "sum_segment_ebitda") false true false;
    NoteItem "Reconciliation to IS EBITDA" (Some "A$m") (Tag "link_is_ebitda") false true false;
    NoteItem EmptyString None NoData false false false;
    (* Note 3: Intangible Assets *)
    NoteItem "INTANGIBLE ASSETS (CONCESSION RIGHTS)" None NoData true false false;
    NoteItem "Opening balance" (Some "A$m") (Lit hist_intang_opening) false false false;
    NoteItem "Additions (capitalised construction)" (Some "A$m") (Lit hist_intang_additions) false false false;
    NoteItem "Amortisation charge" (Some "A$m") (Tag "link_is_da_60pct") false false false;
    NoteItem "Closing balance" (Some "A$m") (Tag "calc_intang_close") false true false;
    NoteItem "Cross-check to BS" (Some "A$m") (Tag "link_bs_intang") false true true;
    NoteItem EmptyString None NoData false false false;
    (* Note 4: Borrowings *)
    NoteItem "BORROWINGS" None NoData true false false;
    NoteItem "Current borrowings" (Some "A$m") (Tag "link_bs_current_debt") false false false;
    NoteItem "Non-current borrowings" (Some "A$m") (Tag "link_bs_nc_debt") false false false;
    NoteItem "Total borrowings" (Some "A$m") (Tag "link_bs_total_debt") false true false;
    NoteItem EmptyString None NoData false false false;
    NoteItem "Maturity Profile" None NoData false false false;
    NoteItem "  Within 1 year" (Some "A$m") (Tag "link_current_debt") false false false;
    NoteItem "  1-2 years" (Some "A$m") (Lit hist_maturity_1_2yr) false false false;
    NoteItem "  2-5 years" (Some "A$m") (Lit hist_maturity_2_5yr) false false false;
    NoteItem "  Over 5 years" (Some "A$m") (Tag "calc_over_5yr") false false false;
    NoteItem "  Total (maturity check)" (Some "A$m") (Tag "sum_maturity") false true true;
    NoteItem EmptyString None NoData false false false;
    NoteItem "Borrowing Costs" None NoData false false false;
    NoteItem "  Interest expense" (Some "A$m") (Tag "link_is_interest") false false false;
    NoteItem "  Capitalised borrowing costs" (Some "A$m") (Lit hist_cap_borrow_costs) false false false;
    NoteItem "  Effective interest rate" (Some "%") (Tag "link_assum_cod") false false false;
    NoteItem EmptyString None NoData false false false;
    (* Note 5: Income Tax *)
    NoteItem "INCOME TAX" None NoData true false false;
    NoteItem "Profit before tax" (Some "A$m") (Tag "link_is_pbt") false false false;
    NoteItem "Tax at statutory rate (30%)" (Some "A$m") (Tag "calc_tax_30pct") false false false;
    NoteItem "Tax effect adjustments:" None NoData false false false;
    NoteItem "  Non-deductible amortisation" (Some "A$m") (Lit hist_non_ded_amort) false false false;
    NoteItem "  Tax concessions & offsets" (Some "A$m") (Lit hist_tax_concessions) false false false;
    NoteItem "  Other permanent differences" (Some "A$m") (Lit hist_other_perm_diff) false false false;
    NoteItem "Total tax adjustments" (Some "A$m") (Tag "sum_tax_adj") false true false;
    NoteItem "Income tax expense" (Some "A$m") (Tag "link_is_tax") false true false;
    NoteItem "Effective tax rate" (Some "%") (Tag "calc_etr") false false false;
    NoteItem "ETR per Assumptions" (Some "%") (Tag "link_assum_tax") false false true;
    NoteItem EmptyString None NoData false false false;
    (* Note 6: Dividends/Distributions *)
    NoteItem "DIVIDENDS / DISTRIBUTIONS" None NoData true false false;
    NoteItem "DPS (cents per security)" (Some "A¢") (Tag "link_assum_dps") false false false;
    NoteItem "Securities on issue (m)" (Some "m") (Tag "link_assum_shares") false false false;
    NoteItem "Total distributions paid" (Some "A$m") (Tag "link_cf_div") false false false;
    NoteItem "Payout ratio (% of NPAT)" (Some "%") (Tag "calc_payout") false false false;
    NoteItem "Franking credits" (Some "A$m") (Lit [0; 0; 0; 0; 0]%Z) false false false;
    NoteItem EmptyString None NoData false false false;
    (* Note 7: Commitments & Contingencies *)
    NoteItem "COMMITMENTS & CONTINGENCIES" None NoData true false false;
    NoteItem "Capital commitments" (Some "A$m") (Lit hist_cap_commit) false false false;
    NoteItem "Operating lease commitments" (Some "A$m") (Lit hist_op_lease_commit) false false false;
    NoteItem "Contingent liabilities" (Some "A$m") (Lit hist_contingent_liab) false false false ].

(** One pass of the Notes assembly loop. *)
Definition assemble_note (st : wb * gmap string nat * nat) (it : note_item)
    : wb * gmap string nat * nat :=
  let '(w, ROW, r) := st in
  let w := set_cell Notes r LABEL_COL (Text (n_label it)) w in
  let w := if truthy (n_unit it)
           then set_cell Notes r UNIT_COL (Text (default EmptyString (n_unit it))) w
           else w in
  let ROW := <[n_label it := r]> ROW in
  let w := match n_data it with
           | Lit vs =>
               foldl (λ w '(i, v), set_cell Notes r (HIST_START + i) (Num (inject_Z v)) w)
                     w (enumerate vs)
           | _ => w
           end in
  (w, ROW, r + 1).

Definition assemble_notes (items : list note_item) (start : nat) (w : wb)
    : wb * gmap string nat * nat :=
  foldl assemble_note (w, ∅, start) items.

(** Note 1: revenue breakdown, FY21-FY30. *)
Definition note1_body (IS_ROW : gmap string nat)
    (row_toll row_construction row_other_rev row_total_rev_note : nat)
    (col_idx : nat) (w : wb) : result wb :=
  let col := HIST_START + col_idx in
  let cl := get_column_letter col in
  let prev_cl := get_column_letter (col - 1) in
  r ← getitem IS_ROW "Toll revenue";
  let w := put Notes row_toll col ["='Income Statement'!"; cl; str r] w in
  let w := if decide (FC_START ≤ col)
           then put Notes row_construction col
                  ["="; prev_cl; str row_construction; "*(1+Assumptions!"; cl;
                   str AROW_CONSTR_GR; ")"] w
           else w in
  r ← getitem IS_ROW "Other revenue";
  let w := put Notes row_other_rev col ["='Income Statement'!"; cl; str r] w in
  r ← getitem IS_ROW "Total Revenue";
  let w := put Notes row_total_rev_note col ["='Income Statement'!"; cl; str r] w in
  mret w.

(** Note 2: segment totals, historical years only.  The segment rows are
    found by offset from the row of the segment's name, not by label. *)
Definition note2_body (IS_ROW : gmap string nat)
    (row_melb_rev row_melb_ebitda row_syd_rev row_syd_ebitda
     row_bris_rev row_bris_ebitda row_na_rev row_na_ebitda
     row_total_seg_rev row_total_seg_ebitda row_recon_ebitda : nat)
    (col_idx : nat) (w : wb) : result wb :=
  let col := HIST_START + col_idx in
  let cl := get_column_letter col in
  let w := put Notes row_total_seg_rev col
    ["="; cl; str row_melb_rev; "+"; cl; str row_syd_rev; "+"; cl; str row_bris_rev;
     "+"; cl; str row_na_rev] w in
  let w := put Notes row_total_seg_ebitda col
    ["="; cl; str row_melb_ebitda; "+"; cl; str row_syd_ebitda; "+"; cl; str row_bris_ebitda;
     "+"; cl; str row_na_ebitda] w in
  r ← getitem IS_ROW "EBITDA";
  let w := put Notes row_recon_ebitda col ["='Income Statement'!"; cl; str r] w in
  mret w.

(** Note 3: intangible assets roll-forward, FY21-FY30. *)
Definition note3_body (IS_ROW BS_ROW : gmap string nat)
    (row_construction row_intang_open row_intang_add row_intang_amort
     row_intang_close row_intang_check : nat)
    (col_idx : nat) (w : wb) : result wb :=
  let col := HIST_START + col_idx in
  let cl := get_column_letter col in
  let prev_cl := get_column_letter (col - 1) in
  let w := if decide (HIST_START < col)
           then put Notes row_intang_open col ["="; prev_cl; str row_intang_close] w
           else w in
  let w := if decide (FC_START ≤ col)
           then put Notes row_intang_add col ["="; cl; str row_construction] w
           else w in
  r ← getitem IS_ROW "Depreciation & amortisation";
  let w := put Notes row_intang_amort col
    ["='Income Statement'!"; cl; str r; "*Assumptions!"; cl; str AROW_DA_INTANG] w in
  let w := put Notes row_intang_close col
    ["="; cl; str row_intang_open; "+"; cl; str row_intang_add; "+"; cl; str row_intang_amort] w in
  r ← getitem BS_ROW "Intangible assets (concessions)";
  let w := put Notes row_intang_check col ["='Balance Sheet'!"; cl; str r] w in
  mret w.

(** Note 4: borrowings, maturity profile and borrowing costs, FY21-FY30. *)
Definition note4_body (IS_ROW BS_ROW : gmap string nat)
    (row_curr_debt row_nc_debt row_total_debt row_mat_within_1 row_mat_1_2 row_mat_2_5
     row_mat_over_5 row_mat_total row_interest row_cap_costs row_eff_rate : nat)
    (col_idx : nat) (w : wb) : result wb :=
  let col := HIST_START + col_idx in
  let cl := get_column_letter col in
  r ← getitem BS_ROW "Current borrowings";
  let w := put Notes row_curr_debt col ["='Balance Sheet'!"; cl; str r] w in
  r ← getitem BS_ROW "Non-current borrowings";
  let w := put Notes row_nc_debt col ["='Balance Sheet'!"; cl; str r] w in
  r ← getitem BS_ROW "Total Borrowings (current + non-current)";
  let w := put Notes row_total_debt col ["='Balance Sheet'!"; cl; str r] w in
  let w := put Notes row_mat_within_1 col ["="; cl; str row_curr_debt] w in
  let w := if decide (FC_START ≤ col)
           then put Notes row_mat_1_2 col
                  ["="; cl; str row_total_debt; "*Assumptions!"; cl; str AROW_MAT_1_2] w
           else w in
  let w := if decide (FC_START ≤ col)
           then put Notes row_mat_2_5 col
                  ["="; cl; str row_total_debt; "*Assumptions!"; cl; str AROW_MAT_2_5] w
           else w in
  let w := put Notes row_mat_over_5 col
    ["="; cl; str row_total_debt; "-"; cl; str row_mat_within_1; "-"; cl; str row_mat_1_2;
     "-"; cl; str row_mat_2_5] w in
  let w := put Notes row_mat_total col
    ["="; cl; str row_mat_within_1; "+"; cl; str row_mat_1_2; "+"; cl; str row_mat_2_5;
     "+"; cl; str row_mat_over_5] w in
  r ← getitem IS_ROW "Net finance costs";
  let w := put Notes row_interest col ["=-'Income Statement'!"; cl; str r] w in
  let w := if decide (FC_START ≤ col)
           then put Notes row_cap_costs col
                  ["=Assumptions!"; cl; str AROW_CAPEX; "*Assumptions!"; cl; str AROW_COD;
                   "*Assumptions!"; cl; str AROW_CAP_BORR] w
           else w in
  let w := put Notes row_eff_rate col ["=Assumptions!"; cl; str AROW_COD] w in
  mret w.

(** Note 5: income tax reconciliation, FY21-FY30. *)
Definition note5_body (IS_ROW : gmap string nat)
    (row_pbt row_tax_30 row_non_ded row_tax_conc row_other_perm row_total_adj
     row_tax_exp row_etr row_etr_assum : nat)
    (col_idx : nat) (w : wb) : result wb :=
  let col := HIST_START + col_idx in
  let cl := get_column_letter col in
  r ← getitem IS_ROW "Profit / (Loss) before tax";
  let w := put Notes row_pbt col ["='Income Statement'!"; cl; str r] w in
  let w := put Notes row_tax_30 col
    ["="; cl; str row_pbt; "*-Assumptions!"; cl; str AROW_STAT_TAX] w in
  let w := if decide (FC_START ≤ col)
           then
             let w := put Notes row_non_ded col ["=Assumptions!"; cl; str AROW_NON_DED] w in
             let w := put Notes row_tax_conc col ["=Assumptions!"; cl; str AROW_TAX_CONC] w in
             put Notes row_other_perm col ["=Assumptions!"; cl; str AROW_OTHER_PERM] w
           else w in
  let w := put Notes row_total_adj col
    ["="; cl; str row_non_ded; "+"; cl; str row_tax_conc; "+"; cl; str row_other_perm] w in
  r ← getitem IS_ROW "Income tax (expense) / benefit";
  let w := put Notes row_tax_exp col ["='Income Statement'!"; cl; str r] w in
  let w := put Notes row_etr col ["="; cl; str row_tax_exp; "/"; cl; str row_pbt] w in
  let w := put Notes row_etr_assum col ["=Assumptions!"; cl; str AROW_TAX] w in
  mret w.

(** Note 6: dividends and distributions, FY21-FY30. *)
Definition note6_body (IS_ROW CF_ROW : gmap string nat)
    (row_dps row_shares row_dist_paid row_payout row_franking : nat)
    (col_idx : nat) (w : wb) : result wb :=
  let col := HIST_START + col_idx in
  let cl := get_column_letter col in
  let w := put Notes row_dps col ["=Assumptions!"; cl; str AROW_DPS] w in
  let w := put Notes row_shares col ["=Assumptions!"; cl; str AROW_SHARES] w in
  r ← getitem CF_ROW "Dividends / distributions paid";
  let w := put Notes row_dist_paid col ["='Cash Flow Statement'!"; cl; str r] w in
  r ← getitem IS_ROW "Net Profit / (Loss) After Tax";
  let w := put Notes row_payout col
    ["=-"; cl; str row_dist_paid; "/'Income Statement'!"; cl; str r] w in
  let w := if decide (FC_START ≤ col)
           then set_cell Notes row_franking col (Num 0) w
           else w in
  mret w.

(** Note 7: commitments and contingencies, FY21-FY30. *)
Definition note7_body (row_cap_commit row_op_lease row_contingent : nat)
    (col_idx : nat) (w : wb) : wb :=
  let col := HIST_START + col_idx in
  let cl := get_column_letter col in
  let prev_cl := get_column_letter (col - 1) in
  let w := if decide (FC_START ≤ col)
           then put Notes row_cap_commit col
                  ["=Assumptions!"; cl; str AROW_CAPEX; "*Assumptions!"; cl; str AROW_CAP_COMMIT] w
           else w in
  let w := if decide (FC_START ≤ col)
           then put Notes row_op_lease col
                  ["="; prev_cl; str row_op_lease; "*(1+Assumptions!"; cl;
                   str AROW_OP_LEASE_GR; ")"] w
           else w in
  let w := if decide (FC_START ≤ col)
           then put Notes row_contingent col ["=Assumptions!"; cl; str AROW_CONTINGENT] w
           else w in
  w.

(** The formula part of the Notes sheet: row lookups and loops, note by note. *)
Definition notes_formulas (NOTES_ROW IS_ROW BS_ROW CF_ROW : gmap string nat) (w : wb)
    : result wb :=
  (* Note 1 *)
  row_toll ← getitem NOTES_ROW "Toll revenue";
  row_construction ← getitem NOTES_ROW "Construction revenue";
  row_other_rev ← getitem NOTES_ROW "Other revenue";
  row_total_rev_note ← getitem NOTES_ROW "Total Revenue";
  w ← for_each (range 10)
        (note1_body IS_ROW row_toll row_construction row_other_rev row_total_rev_note) w;
  (* Note 2 *)
  r ← getitem NOTES_ROW "Melbourne (CityLink)";
  let row_melb_rev := r + 1 in
  let row_melb_ebitda := row_melb_rev + 1 in
  r ← getitem NOTES_ROW "Sydney";
  let row_syd_rev := r + 1 in
  let row_syd_ebitda := row_syd_rev + 1 in
  r ← getitem NOTES_ROW "Brisbane";
  let row_bris_rev := r + 1 in
  let row_bris_ebitda := row_bris_rev + 1 in
  r ← getitem NOTES_ROW "North America";
  let row_na_rev := r + 1 in
  let row_na_ebitda := row_na_rev + 1 in
  row_total_seg_rev ← getitem NOTES_ROW "Total segment revenue";
  row_total_seg_ebitda ← getitem NOTES_ROW "Total segment EBITDA";
  row_recon_ebitda ← getitem NOTES_ROW "Reconciliation to IS EBITDA";
  w ← for_each (range 5)
        (note2_body IS_ROW row_melb_rev row_melb_ebitda row_syd_rev row_syd_ebitda
           row_bris_rev row_bris_ebitda row_na_rev row_na_ebitda
           row_total_seg_rev row_total_seg_ebitda row_recon_ebitda) w;
  (* Note 3 *)
  row_intang_open ← getitem NOTES_ROW "Opening balance";
  row_intang_add ← getitem NOTES_ROW "Additions (capitalised construction)";
  row_intang_amort ← getitem NOTES_ROW "Amortisation charge";
  row_intang_close ← getitem NOTES_ROW "Closing balance";
  row_intang_check ← getitem NOTES_ROW "Cross-check to BS";
  w ← for_each (range 10)
        (note3_body IS_ROW BS_ROW row_construction row_intang_open row_intang_add
           row_intang_amort row_intang_close row_intang_check) w;
  (* Note 4 *)
  row_curr_debt ← getitem NOTES_ROW "Current borrowings";
  row_nc_debt ← getitem NOTES_ROW "Non-current borrowings";
  row_total_debt ← getitem NOTES_ROW "Total borrowings";
  row_mat_within_1 ← getitem NOTES_ROW "  Within 1 year";
  row_mat_1_2 ← getitem NOTES_ROW "  1-2 years";
  row_mat_2_5 ← getitem NOTES_ROW "  2-5 years";
  row_mat_over_5 ← getitem NOTES_ROW "  Over 5 years";
  row_mat_total ← getitem NOTES_ROW "  Total (maturity check)";
  row_interest ← getitem NOTES_ROW "  Interest expense";
  row_cap_costs ← getitem NOTES_ROW "  Capitalised borrowing costs";
  row_eff_rate ← getitem NOTES_ROW "  Effective interest rate";
  w ← for_each (range 10)
        (note4_body IS_ROW BS_ROW row_curr_debt row_nc_debt row_total_debt row_mat_within_1
           row_mat_1_2 row_mat_2_5 row_mat_over_5 row_mat_total row_interest row_cap_costs
           row_eff_rate) w;
  (* Note 5 *)
  row_pbt ← getitem NOTES_ROW "Profit before tax";
  row_tax_30 ← getitem NOTES_ROW "Tax at statutory rate (30%)";
  row_non_ded ← getitem NOTES_ROW "  Non-deductible amortisation";
  row_tax_conc ← getitem NOTES_ROW "  Tax concessions & offsets";
  row_other_perm ← getitem NOTES_ROW "  Other permanent differences";
  row_total_adj ← getitem NOTES_ROW "Total tax adjustments";
  row_tax_exp ← getitem NOTES_ROW "Income tax expense";
  row_etr ← getitem NOTES_ROW "Effective tax rate";
  row_etr_assum ← getitem NOTES_ROW "ETR per Assumptions";
  w ← for_each (range 10)
        (note5_body IS_ROW row_pbt row_tax_30 row_non_ded row_tax_conc row_other_perm
           row_total_adj row_tax_exp row_etr row_etr_assum) w;
  (* Note 6 *)
  row_dps ← getitem NOTES_ROW "DPS (cents per security)";
  row_shares ← getitem NOTES_ROW "Securities on issue (m)";
  row_dist_paid ← getitem NOTES_ROW "Total distributions paid";
  row_payout ← getitem NOTES_ROW "Payout ratio (% of NPAT)";
  row_franking ← getitem NOTES_ROW "Franking credits";
  w ← for_each (range 10)
        (note6_body IS_ROW CF_ROW row_dps row_shares row_dist_paid row_payout row_franking) w;
  (* Note 7 *)
  row_cap_commit ← getitem NOTES_ROW "Capital commitments";
  row_op_lease ← getitem NOTES_ROW "Operating lease commitments";
  row_contingent ← getitem NOTES_ROW "Contingent liabilities";
  mret (foldl (λ w col_idx, note7_body row_cap_commit row_op_lease row_contingent col_idx w)
              w (range 10)).

(** ** The whole script *)

(** The declarations the script is written from: the ordered line items of
    each statement and the two label lists used to pre-compute row
    positions.  The generator below is a function of them, so that its
    behaviour under reordered or changed declarations can be stated. *)
Record declarations := Declarations {
  d_is_items : list item;
  d_bs_labels : list string;
  d_cf_labels : list string;
  d_bs_items : list item;
  d_cf_items : list item;
  d_notes_items : list note_item;
}.

(** What exists when the script reaches [wb.save]: the cells of the five
    sheets and the row registries. *)
Record model := Model {
  cells : wb;
  IS_ROW : gmap string nat;
  BS_ROW : gmap string nat;
  CF_ROW : gmap string nat;
  NOTES_ROW : gmap string nat;
  BS_NCA_ROW : nat;
  BS_DEBT_ROW : nat;
  CF_CLOSE_CASH_ROW : nat;
}.

Definition script (D : declarations) : result model :=
  (* 1. Assumptions *)
  let w := run assumptions_sheet ∅ in
  (* 2. Income Statement *)
  let w := set_cell IncomeStatement 4 LABEL_COL (Text "Income Statement") w in
  let w := set_cell IncomeStatement 4 UNIT_COL (Text EmptyString) w in
  let w := write_fy_header IncomeStatement 4 w in
  let '(w, IS_ROW, _) := assemble IncomeStatement (d_is_items D) IS_START w in
  let _bs_row_map := row_map (d_bs_labels D) in
  BS_NCA_ROW ← getitem _bs_row_map "Total Non-Current Assets";
  BS_DEBT_ROW ← getitem _bs_row_map "Total Borrowings (current + non-current)";
  let _cf_row_map := row_map (d_cf_labels D) in
  CF_CLOSE_CASH_ROW ← getitem _cf_row_map "Closing Cash Balance";
  w ← for_each (range 5) (is_forecast_body IS_ROW BS_NCA_ROW BS_DEBT_ROW) w;
  (* 3. Balance Sheet *)
  let w := set_cell BalanceSheet 4 LABEL_COL (Text "Balance Sheet") w in
  let w := write_fy_header BalanceSheet 4 w in
  let '(w, BS_ROW, _) := assemble BalanceSheet (d_bs_items D) 5 w in
  actual_bs_nca_row ← getitem BS_ROW "Total Non-Current Assets";
  actual_bs_debt_row ← getitem BS_ROW "Total Borrowings (current + non-current)";
  _ ← assert_eq actual_bs_nca_row BS_NCA_ROW
        (fstring ["BS NCA row mismatch: "; str actual_bs_nca_row; " != "; str BS_NCA_ROW]);
  _ ← assert_eq actual_bs_debt_row BS_DEBT_ROW
        (fstring ["BS debt row mismatch: "; str actual_bs_debt_row; " != "; str BS_DEBT_ROW]);
  row_ta ← getitem BS_ROW "Total Assets";
  row_tle ← getitem BS_ROW "Total Liabilities & Equity";
  row_check ← getitem BS_ROW "Balance Sheet Check (Assets - L&E)";
  let w := bs_hist_check row_ta row_tle row_check w in
  '(R, w) ← bs_forecast BS_ROW IS_ROW row_check CF_CLOSE_CASH_ROW w;
  IS_ROW_NPAT ← getitem IS_ROW "Net Profit / (Loss) After Tax";
  IS_ROW_DA ← getitem IS_ROW "Depreciation & amortisation";
  (* 4. Cash Flow Statement *)
  let w := set_cell CashFlowStatement 4 LABEL_COL (Text "Cash Flow Statement") w in
  let w := write_fy_header CashFlowStatement 4 w in
  let '(w, CF_ROW, _) := assemble CashFlowStatement (d_cf_items D) 5 w in
  actual_cf_close_row ← getitem CF_ROW "Closing Cash Balance";
  _ ← assert_eq actual_cf_close_row CF_CLOSE_CASH_ROW
        (fstring ["CF close row mismatch: "; str actual_cf_close_row; " != ";
                  str CF_CLOSE_CASH_ROW]);
  w ← cf_forecast CF_ROW R IS_ROW_NPAT IS_ROW_DA w;
  (* 5. Notes *)
  let w := set_cell Notes 4 LABEL_COL (Text "Notes") w in
  let w := set_cell Notes 4 UNIT_COL (Text EmptyString) w in
  let w := write_fy_header Notes 4 w in
  let '(w, NOTES_ROW, _) := assemble_notes (d_notes_items D) 5 w in
  w ← notes_formulas NOTES_ROW IS_ROW BS_ROW CF_ROW w;
  (* 7. Save *)
  mret (Model w IS_ROW BS_ROW CF_ROW NOTES_ROW BS_NCA_ROW BS_DEBT_ROW CF_CLOSE_CASH_ROW).

(** The declarations written in the script. *)
Definition declared : declarations :=
  Declarations is_items _bs_labels _cf_labels bs_items cf_items notes_items.

Definition generate : result model := script declared.

Definition empty_model : model := Model ∅ ∅ ∅ ∅ ∅ 0 0 0.

(** The model the script ends with (the empty one if it raised). *)
Definition generated : model :=
  match generate with inr m => m | inl _ => empty_model end.

Definition workbook : wb := cells generated.

(** * The host spreadsheet: formula syntax

    The script only emits text; what a formula means is decided by the
    program that opens the workbook.  This part fixes that meaning for the
    fragment the script emits: numbers, quoted text, cell references with
    an optional sheet qualifier ([Assumptions!H16], ['Balance Sheet'!G17],
    [$B$5]), unary minus, [+ - * /], the comparison [=], parentheses,
    [IF(c,a,b)] and [AVERAGE(lo:hi)]. *)

Inductive token :=
  | TNum (q : Q)
  | TStr (s : string)
  | TIdent (s : string)
  | TQuoted (s : string)
  | TBang | TColon | TComma | TLParen | TRParen
  | TPlus | TMinus | TStar | TSlash | TEq.

Definition is_digit (c : ascii) : bool :=
  let n := nat_of_ascii c in (48 <=? n) && (n <=? 57).
Definition is_upper (c : ascii) : bool :=
  let n := nat_of_ascii c in (65 <=? n) && (n <=? 90).
Definition is_lower (c : ascii) : bool :=
  let n := nat_of_ascii c in (97 <=? n) && (n <=? 122).
Definition is_ident_char (c : ascii) : bool :=
  is_digit c || is_upper c || is_lower c || (nat_of_ascii c =? 36).

Definition string_of_rev (cs : list ascii) : string := string_of_list_ascii (rev cs).

(** The longest prefix of [cs] whose characters satisfy [p], and what follows it. *)
Fixpoint take_while (p : ascii → bool) (cs : list ascii) : list ascii :=
  match cs with
  | c :: cs' => if p c then c :: take_while p cs' else []
  | [] => []
  end.

Fixpoint drop_while (p : ascii → bool) (cs : list ascii) : list ascii :=
  match cs with
  | c :: cs' => if p c then drop_while p cs' else cs
  | [] => []
  end.

(** The value of a numeral [ddd] or [ddd.ddd], digits given in order. *)
Fixpoint digits_value (cs : list ascii) (acc : Z) : Z :=
  match cs with
  | [] => acc
  | c :: cs' => digits_value cs' (10 * acc + Z.of_nat (nat_of_ascii c - 48))
  end.

Definition numeral_value (cs : list ascii) : option Q :=
  let int_part := take_while is_digit cs in
  let rest := drop_while is_digit cs in
  match rest with
  | [] => Some (inject_Z (digits_value int_part 0))
  | dot :: frac =>
      if (nat_of_ascii dot =? 46) && forallb is_digit frac
      then Some (Qred (inject_Z (digits_value (int_part ++ frac) 0)
                       / inject_Z (10 ^ Z.of_nat (length frac))))
      else None
  end.

(** Lexer state: between tokens, or inside a numeral, a name, a
    double-quoted text or a single-quoted sheet name (characters kept in
    reverse). *)
Inductive lex_state :=
  | LStart
  | LNumber (acc : list ascii)
  | LIdent (acc : list ascii)
  | LString (acc : list ascii)
  | LQuoted (acc : list ascii).

(** A character met between tokens: the token it is, or the state it opens. *)
Definition lex_start (c : ascii) : option (lex_state * list token) :=
  let n := nat_of_ascii c in
  if is_digit c then Some (LNumber [c], [])
  else if is_ident_char c then Some (LIdent [c], [])
  else if n =? 34 then Some (LString [], [])
  else if n =? 39 then Some (LQuoted [], [])
  else if n =? 32 then Some (LStart, [])
  else if n =? 33 then Some (LStart, [TBang])
  else if n =? 58 then Some (LStart, [TColon])
  else if n =? 44 then Some (LStart, [TComma])
  else if n =? 40 then Some (LStart, [TLParen])
  else if n =? 41 then Some (LStart, [TRParen])
  else if n =? 43 then Some (LStart, [TPlus])
  else if n =? 45 then Some (LStart, [TMinus])
  else if n =? 42 then Some (LStart, [TStar])
  else if n =? 47 then Some (LStart, [TSlash])
  else if n =? 61 then Some (LStart, [TEq])
  else None.

Fixpoint lex (st : lex_state) (cs : list ascii) : option (list token) :=
  match cs with
  | [] =>
      match st with
      | LStart => Some []
      | LNumber acc => q ← numeral_value (rev acc); Some [TNum q]
      | LIdent acc => Some [TIdent (string_of_rev acc)]
      | LString _ | LQuoted _ => None
      end
  | c :: cs' =>
      match st with
      | LStart =>
          '(st', out) ← lex_start c; ts ← lex st' cs'; Some (out ++ ts)
      | LNumber acc =>
          if is_digit c || (nat_of_ascii c =? 46) then lex (LNumber (c :: acc)) cs'
          else
            q ← numeral_value (rev acc);
            '(st', out) ← lex_start c; ts ← lex st' cs'; Some (TNum q :: out ++ ts)
      | LIdent acc =>
          if is_ident_char c then lex (LIdent (c :: acc)) cs'
          else
            '(st', out) ← lex_start c; ts ← lex st' cs';
            Some (TIdent (string_of_rev acc) :: out ++ ts)
      | LString acc =>
          if nat_of_ascii c =? 34
          then ts ← lex LStart cs'; Some (TStr (string_of_rev acc) :: ts)
          else lex (LString (c :: acc)) cs'
      | LQuoted acc =>
          if nat_of_ascii c =? 39
          then ts ← lex LStart cs'; Some (TQuoted (string_of_rev acc) :: ts)
          else lex (LQuoted (c :: acc)) cs'
      end
  end.

Definition tokenize (s : string) : option (list token) := lex LStart (list_ascii_of_string s).

(** ** Expressions *)

Inductive binop := Add | Sub | Mul | Div.

Inductive expr :=
  | ENum (q : Q)
  | EStr (s : string)
  | ERef (c : cell)
  | ENeg (e : expr)
  | EBin (op : binop) (a b : expr)
  | EEq (a b : expr)
  | EIf (c a b : expr)
  | EAverage (lo hi : cell).

(** A reference such as [H16] or [$B$5]: column letters then row digits,
    dollar signs ignored.  The result is (row, column). *)
Fixpoint letters_value (cs : list ascii) (acc : nat) : nat :=
  match cs with
  | [] => acc
  | c :: cs' => letters_value cs' (26 * acc + (nat_of_ascii c - 64))
  end.

Definition parse_ref (s : string) : option (nat * nat) :=
  let cs := filter (λ c, nat_of_ascii c ≠ 36) (list_ascii_of_string s) in
  let ls := take_while is_upper cs in
  let ds := drop_while is_upper cs in
  if bool_decide (ls ≠ []) && bool_decide (ds ≠ []) && forallb is_digit ds
  then Some (Z.to_nat (digits_value ds 0), letters_value ls 0)
  else None.

Definition sheet_by_title (name : string) : option sheet :=
  find (λ s, bool_decide (title s = name))
       [Assumptions; IncomeStatement; BalanceSheet; CashFlowStatement; Notes].

(** Binary operators with their binding strength; all associate to the left. *)
Definition binary (t : token) : option (nat * (expr → expr → expr)) :=
  match t with
  | TEq => Some (1, EEq)
  | TPlus => Some (10, EBin Add)
  | TMinus => Some (10, EBin Sub)
  | TStar => Some (20, EBin Mul)
  | TSlash => Some (20, EBin Div)
  | _ => None
  end.

(** Precedence climbing.  [parse_operand] reads one operand (with its
    prefix minus signs, which bind tighter than any binary operator) and
    then extends it; [parse_rest] extends [lhs] with the binary operators
    of strength at least [min]. *)
Fixpoint parse_operand (fuel : nat) (here : sheet) (min : nat) (ts : list token)
    : option (expr * list token) :=
  match fuel with
  | 0 => None
  | S fuel' =>
      match ts with
      | TMinus :: ts1 =>
          '(e, ts2) ← parse_operand fuel' here 30 ts1;
          parse_rest fuel' here min (ENeg e) ts2
      | TNum q :: ts1 => parse_rest fuel' here min (ENum q) ts1
      | TStr s :: ts1 => parse_rest fuel' here min (EStr s) ts1
      | TLParen :: ts1 =>
          '(e, ts2) ← parse_operand fuel' here 0 ts1;
          match ts2 with
          | TRParen :: ts3 => parse_rest fuel' here min e ts3
          | _ => None
          end
      | TQuoted name :: TBang :: TIdent r :: ts1 =>
          s ← sheet_by_title name; rc ← parse_ref r;
          parse_rest fuel' here min (ERef (s, rc)) ts1
      | TIdent name :: TBang :: TIdent r :: ts1 =>
          s ← sheet_by_title name; rc ← parse_ref r;
          parse_rest fuel' here min (ERef (s, rc)) ts1
      | TIdent f :: TLParen :: ts1 =>
          if bool_decide (f = "IF") then
            '(c, ts2) ← parse_operand fuel' here 0 ts1;
            match ts2 with
            | TComma :: ts3 =>
                '(a, ts4) ← parse_operand fuel' here 0 ts3;
                match ts4 with
                | TComma :: ts5 =>
                    '(b, ts6) ← parse_operand fuel' here 0 ts5;
                    match ts6 with
                    | TRParen :: ts7 => parse_rest fuel' here min (EIf c a b) ts7
                    | _ => None
                    end
                | _ => None
                end
            | _ => None
            end
          else if bool_decide (f = "AVERAGE") then
            match ts1 with
            | TIdent lo :: TColon :: TIdent hi :: TRParen :: ts2 =>
                l ← parse_ref lo; h ← parse_ref hi;
                parse_rest fuel' here min (EAverage (here, l) (here, h)) ts2
            | _ => None
            end
          else None
      | TIdent r :: ts1 =>
          rc ← parse_ref r; parse_rest fuel' here min (ERef (here, rc)) ts1
      | _ => None
      end
  end
with parse_rest (fuel : nat) (here : sheet) (min : nat) (lhs : expr) (ts : list token)
    : option (expr * list token) :=
  match fuel with
  | 0 => None
  | S fuel' =>
      match ts with
      | [] => Some (lhs, [])
      | t :: ts1 =>
          match binary t with
          | Some (p, mk) =>
              if min <=? p then
                '(rhs, ts2) ← parse_operand fuel' here (p + 1) ts1;
                parse_rest fuel' here min (mk lhs rhs) ts2
              else Some (lhs, ts)
          | None => Some (lhs, ts)
          end
      end
  end.

(** A stored string is a formula when it starts with [=]. *)
Definition formula_body (s : string) : option string :=
  match s with
  | String c rest => if nat_of_ascii c =? 61 then Some rest else None
  | EmptyString => None
  end.

(** The expression of formula text [s] placed on sheet [here]. *)
Definition parse_formula (here : sheet) (s : string) : option expr :=
  body ← formula_body s;
  ts ← tokenize body;
  '(e, rest) ← parse_operand (2 * length ts + 2) here 0 ts;
  match rest with [] => Some e | _ => None end.

(** * The host spreadsheet: values and evaluation

    Arithmetic is exact (rational numbers).  A blank cell counts as 0 in
    arithmetic; text in arithmetic is an error; errors propagate.  Text is
    compared with [=] character by character. *)

Inductive value :=
  | VNum (q : Q)
  | VText (s : string)
  | VBool (b : bool)
  | VBlank
  | VError.

(** Two values are the same when they are the same number (as rationals)
    or otherwise identical. *)
Definition veq (a b : value) : Prop :=
  match a, b with
  | VNum x, VNum y => (x == y)%Q
  | VText s, VText t => s = t
  | VBool x, VBool y => x = y
  | VBlank, VBlank => True
  | VError, VError => True
  | _, _ => False
  end.

Global Instance veq_dec a b : Decision (veq a b).
Proof.
  destruct a, b; simpl; try (right; tauto); try (left; exact I).
  - apply Qeq_dec.
  - apply _.
  - apply _.
Defined.

(** The number a value stands for in arithmetic, if any. *)
Definition as_num (x : value) : option Q :=
  match x with
  | VNum q => Some q
  | VBlank => Some 0%Q
  | VBool b => Some (if b then 1 else 0)%Q
  | VText _ | VError => None
  end.

Definition arith (op : binop) (x y : Q) : value :=
  match op with
  | Add => VNum (x + y)
  | Sub => VNum (x - y)
  | Mul => VNum (x * y)
  | Div => if Qeq_bool y 0 then VError else VNum (x / y)
  end.

(** The comparison [a = b]. *)
Definition compare_eq (a b : value) : value :=
  match a, b with
  | VError, _ | _, VError => VError
  | VNum x, VNum y => VBool (Qeq_bool x y)
  | VText s, VText t => VBool (String.eqb s t)
  | VBool x, VBool y => VBool (Bool.eqb x y)
  | VBlank, VBlank => VBool true
  | VBlank, VNum y | VNum y, VBlank => VBool (Qeq_bool y 0)
  | VBlank, VText t | VText t, VBlank => VBool (String.eqb t EmptyString)
  | VBlank, VBool y | VBool y, VBlank => VBool (negb y)
  | _, _ => VBool false
  end.

(** The condition of an [IF]. *)
Definition truth (x : value) : option bool :=
  match x with
  | VBool b => Some b
  | VNum q => Some (negb (Qeq_bool q 0))
  | VBlank => Some false
  | VText _ | VError => None
  end.

(** The cells of the rectangle from [lo] to [hi] (same sheet). *)
Definition range_cells (lo hi : cell) : list cell :=
  r ← seq (cell_row lo) (cell_row hi + 1 - cell_row lo);
  c ← seq (cell_col lo) (cell_col hi + 1 - cell_col lo);
  [(cell_sheet lo, (r, c))].

Definition numbers_of (xs : list value) : list Q :=
  omap (λ x, match x with VNum q => Some q | _ => None end) xs.

Definition Qsum (qs : list Q) : Q := foldr Qplus 0%Q qs.

(** [AVERAGE] over the values of a range: numbers are averaged, text,
    logical values and blanks are skipped, an error in the range or a
    range without numbers is an error. *)
Definition average (xs : list value) : value :=
  if existsb (λ x, match x with VError => true | _ => false end) xs then VError
  else
    match numbers_of xs with
    | [] => VError
    | qs => VNum (Qsum qs / inject_Z (Z.of_nat (length qs)))
    end.

Fixpoint eval (v : cell → value) (e : expr) : value :=
  match e with
  | ENum q => VNum q
  | EStr s => VText s
  | ERef c => v c
  | ENeg a =>
      match as_num (eval v a) with
      | Some x => VNum (- x)
      | None => VError
      end
  | EBin op a b =>
      match as_num (eval v a), as_num (eval v b) with
      | Some x, Some y => arith op x y
      | _, _ => VError
      end
  | EEq a b => compare_eq (eval v a) (eval v b)
  | EIf c a b =>
      match truth (eval v c) with
      | Some true => eval v a
      | Some false => eval v b
      | None => VError
      end
  | EAverage lo hi => average (v <$> range_cells lo hi)
  end.

(** What a formula cell shows: the value of its expression, a blank
    result counting as 0. *)
Definition formula_value (v : cell → value) (e : expr) : value :=
  match eval v e with
  | VBlank => VNum 0
  | x => x
  end.

(** The cells an expression reads. *)
Fixpoint refs (e : expr) : list cell :=
  match e with
  | ENum _ | EStr _ => []
  | ERef c => [c]
  | ENeg a => refs a
  | EBin _ a b | EEq a b => refs a ++ refs b
  | EIf c a b => refs c ++ refs a ++ refs b
  | EAverage lo hi => range_cells lo hi
  end.

(** ** A workbook under the host *)

(** The formula held by cell [c], if it holds one. *)
Definition formula_at (w : wb) (c : cell) : option expr :=
  match w !! c with
  | Some (Text s) => parse_formula (cell_sheet c) s
  | _ => None
  end.

(** The rule cell [c] imposes on an assignment [v] of values to cells. *)
Definition cell_rule (w : wb) (v : cell → value) (c : cell) : Prop :=
  match w !! c with
  | None => veq (v c) VBlank
  | Some (Num q) => veq (v c) (VNum q)
  | Some (Text s) =>
      match formula_body s with
      | None => veq (v c) (VText s)
      | Some _ =>
          match parse_formula (cell_sheet c) s with
          | Some e => veq (v c) (formula_value v e)
          | None => veq (v c) VError
          end
      end
  end.

Global Instance cell_rule_dec w v c : Decision (cell_rule w v c).
Proof. unfold cell_rule. repeat case_match; apply _. Defined.

(** [v] is a recalculated state of [w]: every cell obeys its rule. *)
Definition solves (w : wb) (v : cell → value) : Prop := ∀ c, cell_rule w v c.

(** [v] obeys the formulas of [w]; literal cells are left free, so that a
    statement about such [v] holds whatever the inputs are. *)
Definition respects (w : wb) (v : cell → value) : Prop :=
  ∀ c e, formula_at w c = Some e → veq (v c) (formula_value v e).

(** [c] reads [d]: an edge of the dependency graph. *)
Definition depends (w : wb) (c d : cell) : Prop :=
  ∃ e, formula_at w c = Some e ∧ d ∈ refs e.

Definition deps (w : wb) (c : cell) : list cell :=
  match formula_at w c with
  | Some e => refs e
  | None => []
  end.

(** ** Recalculation *)

Definition norm (x : value) : value :=
  match x with
  | VNum q => VNum (Qred q)
  | _ => x
  end.

Definition lookup_value (m : gmap cell value) (c : cell) : value := default VBlank (m !! c).

(** Depth-first recalculation with a table of the values already known:
    the cells a formula reads are computed first, then the formula. *)
Fixpoint calc (fuel : nat) (w : wb) (c : cell) (m : gmap cell value) : gmap cell value :=
  match fuel with
  | 0 => m
  | S fuel' =>
      match m !! c with
      | Some _ => m
      | None =>
          match w !! c with
          | None => m
          | Some (Num q) => <[c := VNum q]> m
          | Some (Text s) =>
              match formula_body s with
              | None => <[c := VText s]> m
              | Some _ =>
                  match parse_formula (cell_sheet c) s with
                  | None => <[c := VError]> m
                  | Some e =>
                      let m' := foldl (λ m d, calc fuel' w d m) m (refs e) in
                      <[c := norm (formula_value (lookup_value m') e)]> m'
                  end
              end
          end
      end
  end.

Definition recalc (w : wb) : gmap cell value :=
  let fuel := S (size w) in
  foldl (λ m c, calc fuel w c m) ∅ (map_to_list w).*1.

(** The assignment read off a table of values: cells the workbook does
    not hold are blank. *)
Definition table_value (w : wb) (m : gmap cell value) (c : cell) : value :=
  match w !! c with
  | None => VBlank
  | Some _ => lookup_value m c
  end.

(** The values of the generated workbook. *)
Definition values : cell → value := table_value workbook (recalc workbook).

(** Every cell of [w] obeys its rule under the table [m]. *)
Definition table_ok (w : wb) (m : gmap cell value) : bool :=
  bool_decide (map_Forall (λ c _, cell_rule w (table_value w m) c) w).

(** ** Dependency ranks

    A rank table is a witness of acyclicity: if every formula cell ranks
    strictly above each cell it reads, no chain of reads returns to its
    start.  [ranks] computes such a table depth first. *)

Definition lookup_rank (m : gmap cell nat) (c : cell) : nat := default 0 (m !! c).

Fixpoint rank_calc (fuel : nat) (w : wb) (c : cell) (m : gmap cell nat) : gmap cell nat :=
  match fuel with
  | 0 => m
  | S fuel' =>
      match m !! c with
      | Some _ => m
      | None =>
          let ds := deps w c in
          let m' := foldl (λ m d, rank_calc fuel' w d m) m ds in
          <[c := S (foldr (λ d acc, lookup_rank m' d `max` acc) 0 ds)]> m'
      end
  end.

Definition ranks (w : wb) : gmap cell nat :=
  let fuel := S (size w) in
  foldl (λ m c, rank_calc fuel w c m) ∅ (map_to_list w).*1.

(** Every formula cell of [w] ranks above the cells it reads. *)
Definition ranked (w : wb) (m : gmap cell nat) : Prop :=
  map_Forall (λ c _, Forall (λ d, lookup_rank m d < lookup_rank m c) (deps w c)) w.

(** No formula of [w] reads a cell in a later column. *)
Definition no_later_column (w : wb) : Prop :=
  map_Forall (λ c _, Forall (λ d, cell_col d ≤ cell_col c) (deps w c)) w.

(** ** Periods and cells by label *)

(** Periods 0..9 are FY21..FY30F: 0..4 historical, 5..9 forecast. *)
Definition period_col (p : nat) : nat := HIST_START + p.
Definition historical (p : nat) : Prop := p < 5.
Definition forecast (p : nat) : Prop := 5 ≤ p < 10.

(** The row a registry gives a label (0, not a sheet row, if it has none). *)
Definition row_of (ROW : gmap string nat) (l : string) : nat := default 0 (ROW !! l).

Definition A_cell (row p : nat) : cell := (Assumptions, (row, period_col p)).
Definition IS_cell (l : string) (p : nat) : cell :=
  (IncomeStatement, (row_of (IS_ROW generated) l, period_col p)).
Definition BS_cell (l : string) (p : nat) : cell :=
  (BalanceSheet, (row_of (BS_ROW generated) l, period_col p)).
Definition CF_cell (l : string) (p : nat) : cell :=
  (CashFlowStatement, (row_of (CF_ROW generated) l, period_col p)).
Definition NOTES_cell (l : string) (p : nat) : cell :=
  (Notes, (row_of (NOTES_ROW generated) l, period_col p)).

(** The segment rows of Note 2, found as the script finds them: one and
    two rows below the row of the segment's name. *)
Definition segment_rev_cell (segment : string) (p : nat) : cell :=
  (Notes, (row_of (NOTES_ROW generated) segment + 1, period_col p)).
Definition segment_ebitda_cell (segment : string) (p : nat) : cell :=
  (Notes, (row_of (NOTES_ROW generated) segment + 2, period_col p)).

Definition segments : list string :=
  ["Melbourne (CityLink)"; "Sydney"; "Brisbane"; "North America"].

(** Cell [c] holds the number [x]. *)
Definition num_at (v : cell → value) (c : cell) (x : Q) : Prop := veq (v c) (VNum x).

(** The drivers that have an active row:
    (active row, input row, scenario-toggle cell). *)
Definition drivers : list (nat * nat * cell) :=
  [ (16, 15, (Assumptions, (5, 2)));
    (18, 17, (Assumptions, (6, 2)));
    (22, 21, (Assumptions, (7, 2)));
    (29, 28, (Assumptions, (8, 2)));
    (35, 34, (Assumptions, (9, 2)));
    (37, 36, (Assumptions, (10, 2))) ].

(** The method token that selects the trailing average. *)
Definition avg_token : string := "3yr Avg".

(** The formula [_write_active_row] puts in a forecast column. *)
Definition active_formula (inp : nat) (toggle : cell) (p : nat) : expr :=
  EIf (EEq (ERef toggle) (EStr avg_token))
      (EAverage (A_cell inp 2) (A_cell inp 4))
      (ERef (A_cell inp p)).

(** The row a registry built by an assembly loop gives a label: the row of
    the last item declaring it. *)
Definition last_row (labels : list string) (start : nat) (l : string) : option nat :=
  foldl (λ acc '(i, lbl), if decide (lbl = l) then Some (start + i) else acc)
        None (enumerate labels).

(** Decidable equality of expressions, for checking generated formulas. *)
Global Instance Q_eq_dec : EqDecision Q.
Proof. solve_decision. Defined.
Global Instance binop_eq_dec : EqDecision binop.
Proof. solve_decision. Defined.
Global Instance expr_eq_dec : EqDecision expr.
Proof. solve_decision. Defined.
Global Instance content_eq_dec : EqDecision content.
Proof. solve_decision. Defined.
Global Instance value_eq_dec : EqDecision value.
Proof. solve_decision. Defined.

(** The number a cell counts as in a sum, and the sum over a list of cells. *)
Definition num_of (x : value) : Q := default 0%Q (as_num x).
Definition sum_at (v : cell → value) (cs : list cell) : Q :=
  Qsum ((λ c, num_of (v c)) <$> cs).

(** [e] evaluates to the number [x] under [v]. *)
Definition evals (v : cell → value) (e : expr) (x : Q) : Prop :=
  ∃ q, eval v e = VNum q ∧ (q == x)%Q.

Global Instance num_at_dec v c x : Decision (num_at v c x).
Proof. unfold num_at. apply _. Defined.
Global Instance Qeq_decision (x y : Q) : Decision (x == y)%Q := Qeq_dec x y.

(** Some values of the generated workbook, used as concrete instances of
    the general statements below. *)
Definition sample_values : list (cell * Q) :=
  [ (BS_cell "Total Non-Current Assets" (5 - 1), 36050);
    (A_cell AROW_DA_PCT 5, 7 # 250);
    (BS_cell "Total Borrowings (current + non-current)" (5 - 1), 25030);
    (A_cell AROW_COD 5, 47 # 1000);
    (IS_cell "Total Revenue" 5, 18321 # 4);
    (A_cell AROW_OPEX_PCT 5, 61 # 200);
    (A_cell AROW_EMP_SHARE 5, 1 # 4);
    (A_cell AROW_ROAD_SHARE 5, 33 # 100);
    (BS_cell "Current borrowings" 5, 2543 # 2);
    (BS_cell "Total Borrowings (current + non-current)" 5, 25430);
    (NOTES_cell "  1-2 years" 5, 2543 # 2);
    (NOTES_cell "  2-5 years" 5, 33059 # 5);
    (NOTES_cell "Opening balance" 0, 22100);
    (NOTES_cell "Additions (capitalised construction)" 0, 530);
    (NOTES_cell "Amortisation charge" 0, -2568 # 5);
    (BS_cell "Intangible assets (concessions)" 0, 22450);
    (A_cell 15 5, 55 # 1000);
    (IS_cell "Toll revenue" 4, 3990) ]%Q.

(** * Properties *)

(** ** The script runs to the end *)

Lemma generate_is_ok : is_ok generate = true.
Proof. vm_compute. reflexivity. Qed.

Lemma generate_ok : generate = inr generated.
Proof.
  pose proof generate_is_ok as H. unfold generated.
  destruct generate as [e|m]; [discriminate H | reflexivity].
Qed.

(** ** Periods *)

Lemma historical_cases p : historical p → p ∈ [0; 1; 2; 3; 4].
Proof.
  unfold historical. intros H.
  do 5 (destruct p as [|p]; [set_solver|]). lia.
Qed.

Lemma forecast_cases p : forecast p → p ∈ [5; 6; 7; 8; 9].
Proof.
  unfold forecast. intros [H1 H2].
  do 5 (destruct p as [|p]; [lia|]).
  do 5 (destruct p as [|p]; [set_solver|]). lia.
Qed.

Lemma period_cases p : p < 10 → p ∈ [0; 1; 2; 3; 4; 5; 6; 7; 8; 9].
Proof.
  intros H. do 10 (destruct p as [|p]; [set_solver|]). lia.
Qed.

Lemma historical_Forall (P : nat → Prop) :
  Forall P [0; 1; 2; 3; 4] → ∀ p, historical p → P p.
Proof. intros H p Hp%historical_cases. rewrite Forall_forall in H. by apply H. Qed.

Lemma forecast_Forall (P : nat → Prop) :
  Forall P [5; 6; 7; 8; 9] → ∀ p, forecast p → P p.
Proof. intros H p Hp%forecast_cases. rewrite Forall_forall in H. by apply H. Qed.

Lemma period_Forall (P : nat → Prop) :
  Forall P [0; 1; 2; 3; 4; 5; 6; 7; 8; 9] → ∀ p, p < 10 → P p.
Proof. intros H p Hp%period_cases. rewrite Forall_forall in H. by apply H. Qed.

(** Decide a closed statement about [values] by computation, with the
    workbook recalculated once. *)
Lemma decide_at {A} (P : A → Prop) `{∀ x, Decision (P x)} (a : A) :
  bool_decide (P a) = true → P a.
Proof. apply bool_decide_eq_true_1. Qed.

Ltac decide_values :=
  pattern values;
  lazymatch goal with
  | |- ?P ?a => apply (@decide_at _ P _ a); vm_compute; reflexivity
  end.

(** Split a goal about a period drawn from a finite list into one goal per
    period. *)
Ltac each_period H :=
  repeat (apply elem_of_cons in H; destruct H as [-> | H]); [.. | by apply elem_of_nil in H].

(** ** The dependency graph *)

Lemma depends_deps w c d : depends w c d ↔ d ∈ deps w c.
Proof.
  unfold depends, deps. split.
  - intros (e & -> & Hd). exact Hd.
  - destruct (formula_at w c) as [e|]; [eauto | by intros ?%elem_of_nil].
Qed.

Lemma depends_in_workbook w c d : depends w c d → is_Some (w !! c).
Proof.
  intros (e & He & _). unfold formula_at in He.
  destruct (w !! c); [eauto | discriminate].
Qed.

Section ranked_graph.
Context (w : wb) (m : gmap cell nat) (Hm : ranked w m).

Lemma depends_rank c d : depends w c d → lookup_rank m d < lookup_rank m c.
Proof.
  intros Hd. destruct (depends_in_workbook _ _ _ Hd) as [x Hx].
  apply depends_deps in Hd.
  pose proof (Hm c x Hx) as Hall. simpl in Hall.
  rewrite Forall_forall in Hall. exact (Hall d Hd).
Qed.

Lemma tc_depends_rank c d : tc (depends w) c d → lookup_rank m d < lookup_rank m c.
Proof.
  induction 1 as [c d H | c d e H _ IH].
  - by apply depends_rank.
  - apply depends_rank in H. lia.
Qed.

Lemma ranked_acyclic c : ¬ tc (depends w) c c.
Proof. intros H%tc_depends_rank. lia. Qed.

Lemma ranked_no_return c d : tc (depends w) c d → ¬ rtc (depends w) d c.
Proof.
  intros H1 H2. apply (ranked_acyclic c). by eapply tc_rtc_r.
Qed.
End ranked_graph.

Section column_order.
Context (w : wb) (Hw : no_later_column w).

Lemma depends_column c d : depends w c d → cell_col d ≤ cell_col c.
Proof.
  intros Hd. destruct (depends_in_workbook _ _ _ Hd) as [x Hx].
  apply depends_deps in Hd.
  pose proof (Hw c x Hx) as Hall. simpl in Hall.
  rewrite Forall_forall in Hall. exact (Hall d Hd).
Qed.

Lemma tc_depends_column c d : tc (depends w) c d → cell_col d ≤ cell_col c.
Proof.
  induction 1 as [c d H | c d e H _ IH].
  - by apply depends_column.
  - apply depends_column in H. lia.
Qed.
End column_order.

Lemma workbook_ranked : ranked workbook (ranks workbook).
Proof.
  apply (bool_decide_unpack _).
  change (Is_true ((λ m, bool_decide (ranked workbook m)) (ranks workbook))).
  vm_compute. exact I.
Qed.

Lemma workbook_no_later_column : no_later_column workbook.
Proof. apply (bool_decide_unpack _). vm_compute. exact I. Qed.

(** C3.  The dependency graph over the generated formula cells, with an
    edge from each cell to every cell its formula reads, has no cycle.  In
    particular, for every forecast period the Balance Sheet cash cell reads
    the Cash Flow closing cash, which reads opening cash (the prior
    period's Balance Sheet cash), the net change and FX; the
    working-capital line reads receivables and payables of the same and
    the prior period; and no cell that the cash cell depends on, directly
    or through other cells, lies in a later period or depends on the cash
    cell in turn. *)
Theorem C3_dependency_graph_acyclic :
  (∀ c, ¬ tc (depends workbook) c c) ∧
  (∀ p, forecast p →
     let cash := BS_cell "Cash & cash equivalents" p in
     deps workbook cash = [CF_cell "Closing Cash Balance" p] ∧
     deps workbook (CF_cell "Closing Cash Balance" p) =
       [CF_cell "Opening cash balance" p;
        CF_cell "Net increase / (decrease) in cash" p;
        CF_cell "FX & other adjustments" p] ∧
     deps workbook (CF_cell "Opening cash balance" p) =
       [BS_cell "Cash & cash equivalents" (p - 1)] ∧
     deps workbook (CF_cell "Changes in working capital" p) =
       [BS_cell "Trade & other receivables" p; BS_cell "Trade & other receivables" (p - 1);
        BS_cell "Trade & other payables" p; BS_cell "Trade & other payables" (p - 1)] ∧
     ∀ d, tc (depends workbook) cash d →
          cell_col d ≤ cell_col cash ∧ ¬ rtc (depends workbook) d cash).
Proof.
  split.
  - apply (ranked_acyclic _ _ workbook_ranked).
  - intros p Hp cash. repeat split.
    + apply forecast_cases in Hp. subst cash. each_period Hp; vm_compute; reflexivity.
    + apply forecast_cases in Hp. each_period Hp; vm_compute; reflexivity.
    + apply forecast_cases in Hp. each_period Hp; vm_compute; reflexivity.
    + apply forecast_cases in Hp. each_period Hp; vm_compute; reflexivity.
    + by apply (tc_depends_column _ workbook_no_later_column).
    + by apply (ranked_no_return _ _ workbook_ranked).
Qed.

Lemma C3_witness :
  forecast 5 ∧
  tc (depends workbook) (BS_cell "Cash & cash equivalents" 5)
     (CF_cell "Closing Cash Balance" 5) ∧
  cell_col (CF_cell "Closing Cash Balance" 5) ≤ cell_col (BS_cell "Cash & cash equivalents" 5) ∧
  ¬ rtc (depends workbook) (CF_cell "Closing Cash Balance" 5)
        (BS_cell "Cash & cash equivalents" 5).
Proof.
  assert (Hp : forecast 5) by (unfold forecast; lia).
  assert (Ht : tc (depends workbook) (BS_cell "Cash & cash equivalents" 5)
                  (CF_cell "Closing Cash Balance" 5)).
  { apply tc_once, depends_deps.
    rewrite (proj1 (proj2 C3_dependency_graph_acyclic 5 Hp)). apply list_elem_of_here. }
  split; [exact Hp|]. split; [exact Ht|].
  exact (proj2 (proj2 (proj2 (proj2 (proj2 C3_dependency_graph_acyclic 5 Hp)))) _ Ht).
Defined.

(** ** Evaluating expressions to numbers *)

Global Instance veq_equiv : Equivalence veq.
Proof.
  split.
  - intros []; simpl; done.
  - intros [] []; simpl; done.
  - intros [] [] []; simpl; try done; try congruence. intros H1 H2. by etrans.
Qed.

Lemma veq_num_r a x : veq a (VNum x) → ∃ q, a = VNum q ∧ (q == x)%Q.
Proof. destruct a; simpl; try done. eauto. Qed.

Lemma num_at_inv v c x : num_at v c x → ∃ q, v c = VNum q ∧ (q == x)%Q.
Proof. apply veq_num_r. Qed.

Lemma num_at_proper v c x y : num_at v c x → (x == y)%Q → num_at v c y.
Proof.
  intros (q & Hq & Hx)%num_at_inv Hxy. unfold num_at. rewrite Hq. simpl. by rewrite Hx.
Qed.

Lemma num_at_unique v c x y : num_at v c x → num_at v c y → (x == y)%Q.
Proof.
  intros (q & Hq & Hx)%num_at_inv (q' & Hq' & Hy)%num_at_inv.
  rewrite Hq in Hq'. injection Hq' as <-. by rewrite <- Hx, <- Hy.
Qed.

Lemma evals_proper v e x y : evals v e x → (x == y)%Q → evals v e y.
Proof. intros (q & Hq & Hx) Hxy. exists q. split; [done | by rewrite Hx]. Qed.

Lemma evals_num v q : evals v (ENum q) q.
Proof. by exists q. Qed.

Lemma evals_ref v c x : num_at v c x → evals v (ERef c) x.
Proof. intros (q & Hq & Hx)%num_at_inv. by exists q. Qed.

Lemma evals_neg v a x : evals v a x → evals v (ENeg a) (- x).
Proof.
  intros (q & Hq & Hx). exists (- q)%Q. simpl. rewrite Hq. simpl.
  split; [done | by rewrite Hx].
Qed.

Lemma evals_add v a b x y : evals v a x → evals v b y → evals v (EBin Add a b) (x + y).
Proof.
  intros (q & Hq & Hx) (r & Hr & Hy). exists (q + r)%Q. simpl. rewrite Hq, Hr. simpl.
  split; [done | by rewrite Hx, Hy].
Qed.

Lemma evals_sub v a b x y : evals v a x → evals v b y → evals v (EBin Sub a b) (x - y).
Proof.
  intros (q & Hq & Hx) (r & Hr & Hy). exists (q - r)%Q. simpl. rewrite Hq, Hr. simpl.
  split; [done | by rewrite Hx, Hy].
Qed.

Lemma evals_mul v a b x y : evals v a x → evals v b y → evals v (EBin Mul a b) (x * y).
Proof.
  intros (q & Hq & Hx) (r & Hr & Hy). exists (q * r)%Q. simpl. rewrite Hq, Hr. simpl.
  split; [done | by rewrite Hx, Hy].
Qed.

Lemma evals_div v a b x y :
  evals v a x → evals v b y → ¬ (y == 0)%Q → evals v (EBin Div a b) (x / y).
Proof.
  intros (q & Hq & Hx) (r & Hr & Hy) Hy0. exists (q / r)%Q. simpl. rewrite Hq, Hr. simpl.
  destruct (Qeq_bool r 0) eqn:E.
  - apply Qeq_bool_iff in E. rewrite Hy in E. done.
  - split; [done | by rewrite Hx, Hy].
Qed.

(** A formula cell holds what its formula evaluates to. *)
Lemma respects_evals w v c e x :
  respects w v → formula_at w c = Some e → evals v e x → num_at v c x.
Proof.
  intros Hv He (q & Hq & Hx). specialize (Hv c e He).
  unfold formula_value in Hv. rewrite Hq in Hv.
  unfold num_at. rewrite Hv. simpl. exact Hx.
Qed.

(** Evaluate an arithmetic expression whose leaves are known numbers. *)
Ltac evals_step :=
  first
    [ eapply evals_ref; eassumption
    | eapply evals_num
    | eapply evals_neg
    | eapply evals_add
    | eapply evals_sub
    | eapply evals_mul ].

Ltac evals_arith := repeat evals_step.

(** ** The recalculated workbook *)

Lemma table_solves w m : table_ok w m = true → solves w (table_value w m).
Proof.
  intros H%bool_decide_eq_true_1 c. destruct (w !! c) as [x|] eqn:E.
  - exact (H c x E).
  - unfold cell_rule, table_value. rewrite E. exact I.
Qed.

(** The values computed for the generated workbook obey every cell. *)
Lemma values_solve : solves workbook values.
Proof. apply table_solves. vm_compute. reflexivity. Qed.

Lemma parse_formula_body here s e : parse_formula here s = Some e → is_Some (formula_body s).
Proof.
  unfold parse_formula. destruct (formula_body s); [eauto | discriminate].
Qed.

Lemma solves_respects w v : solves w v → respects w v.
Proof.
  intros H c e He. specialize (H c). unfold cell_rule in H. unfold formula_at in He.
  destruct (w !! c) as [[q|s]|]; try discriminate.
  destruct (parse_formula_body _ _ _ He) as [b Hb]. rewrite Hb, He in H. exact H.
Qed.

Lemma values_respect : respects workbook values.
Proof. apply solves_respects, values_solve. Qed.

Lemma sample_values_hold : Forall (λ '(c, x), num_at values c x) sample_values.
Proof. decide_values. Qed.

(** The [i]-th sample, as a fact about [values]. *)
Lemma sample i c x : sample_values !! i = Some (c, x) → num_at values c x.
Proof.
  intros H. pose proof sample_values_hold as Hall.
  rewrite Forall_lookup in Hall. exact (Hall i (c, x) H).
Qed.

(** ** Operating expenses (Income Statement, forecast) *)

(** The four operating-expense formulas of a forecast year. *)
Lemma opex_formulas p :
  forecast p →
  let tr := ERef (IS_cell "Total Revenue" p) in
  let opex := ERef (A_cell AROW_OPEX_PCT p) in
  let emp := ERef (IS_cell "Employee costs" p) in
  let road := ERef (IS_cell "Road operating costs" p) in
  let corp := ERef (IS_cell "Corporate & admin costs" p) in
  formula_at workbook (IS_cell "Employee costs" p) =
    Some (EBin Mul (EBin Mul (ENeg tr) opex) (ERef (A_cell AROW_EMP_SHARE p))) ∧
  formula_at workbook (IS_cell "Road operating costs" p) =
    Some (EBin Mul (EBin Mul (ENeg tr) opex) (ERef (A_cell AROW_ROAD_SHARE p))) ∧
  formula_at workbook (IS_cell "Corporate & admin costs" p) =
    Some (EBin Sub (EBin Sub (EBin Mul (ENeg tr) opex) emp) road) ∧
  formula_at workbook (IS_cell "Total Operating Expenses" p) =
    Some (EBin Add (EBin Add emp road) corp).
Proof.
  intros Hp%forecast_cases. each_period Hp; vm_compute; repeat split; reflexivity.
Qed.

(** C8.  In every forecast period, whatever numbers the total revenue and
    the opex%, employee-share and road-ops-share drivers are, Corporate &
    admin costs is -(Total Revenue x opex%) - Employee costs - Road
    operating costs, and Total Operating Expenses, the sum of the three
    cost lines, is exactly -(Total Revenue x opex%). *)
Theorem C8_corporate_costs_plug (v : cell → value) (p : nat) (tr o es rs : Q) :
  respects workbook v →
  forecast p →
  num_at v (IS_cell "Total Revenue" p) tr →
  num_at v (A_cell AROW_OPEX_PCT p) o →
  num_at v (A_cell AROW_EMP_SHARE p) es →
  num_at v (A_cell AROW_ROAD_SHARE p) rs →
  ∃ emp road corp,
    num_at v (IS_cell "Employee costs" p) emp ∧
    num_at v (IS_cell "Road operating costs" p) road ∧
    num_at v (IS_cell "Corporate & admin costs" p) corp ∧
    (corp == - (tr * o) - emp - road)%Q ∧
    num_at v (IS_cell "Total Operating Expenses" p) (- (tr * o)) ∧
    (emp + road + corp == - (tr * o))%Q.
Proof.
  intros Hv Hp Htr Ho Hes Hrs.
  destruct (opex_formulas p Hp) as (Femp & Froad & Fcorp & Ftop).
  assert (Hemp : num_at v (IS_cell "Employee costs" p) (- tr * o * es)).
  { eapply respects_evals; [done | exact Femp | evals_arith]. }
  assert (Hroad : num_at v (IS_cell "Road operating costs" p) (- tr * o * rs)).
  { eapply respects_evals; [done | exact Froad | evals_arith]. }
  assert (Hcorp : num_at v (IS_cell "Corporate & admin costs" p)
                    (- tr * o - - tr * o * es - - tr * o * rs)).
  { eapply respects_evals; [done | exact Fcorp | evals_arith]. }
  exists (- tr * o * es)%Q, (- tr * o * rs)%Q, (- tr * o - - tr * o * es - - tr * o * rs)%Q.
  split; [done|]. split; [done|]. split; [done|]. split; [ring|]. split; [|ring].
  eapply respects_evals; [done | exact Ftop |].
  eapply evals_proper; [evals_arith | ring].
Qed.

(** ** Lagged drivers (Income Statement, forecast) *)

(** The depreciation and interest formulas of a forecast year read the
    prior year's Balance Sheet column. *)
Lemma lagged_formulas p :
  forecast p →
  formula_at workbook (IS_cell "Depreciation & amortisation" p) =
    Some (EBin Mul (ENeg (ERef (BS_cell "Total Non-Current Assets" (p - 1))))
                   (ERef (A_cell AROW_DA_PCT p))) ∧
  formula_at workbook (IS_cell "Net finance costs" p) =
    Some (EBin Mul (ENeg (ERef (BS_cell "Total Borrowings (current + non-current)" (p - 1))))
                   (ERef (A_cell AROW_COD p))).
Proof.
  intros Hp%forecast_cases. each_period Hp; vm_compute; repeat split; reflexivity.
Qed.

(** Rows 29 and 35 of the Assumptions sheet are the active D&A% and
    cost-of-debt rows. *)
Lemma lagged_driver_labels :
  workbook !! (Assumptions, (AROW_DA_PCT, LABEL_COL)) = Some (Text "D&A as % of NCA (active)") ∧
  workbook !! (Assumptions, (AROW_COD, LABEL_COL)) = Some (Text "Average cost of debt (active)").
Proof. vm_compute. split; reflexivity. Qed.

(** C7.  For every forecast period p, Depreciation & amortisation is
    -(Total Non-Current Assets of period p-1) x the period-p active D&A%
    driver and Net finance costs is -(Total Borrowings of period p-1) x the
    period-p active cost-of-debt driver; each formula reads exactly the
    prior period's Balance Sheet total and the current period's driver,
    never a Balance Sheet cell of the current period. *)
Theorem C7_lagged_drivers (v : cell → value) (p : nat) (nca da debt cod : Q) :
  respects workbook v →
  forecast p →
  num_at v (BS_cell "Total Non-Current Assets" (p - 1)) nca →
  num_at v (A_cell AROW_DA_PCT p) da →
  num_at v (BS_cell "Total Borrowings (current + non-current)" (p - 1)) debt →
  num_at v (A_cell AROW_COD p) cod →
  num_at v (IS_cell "Depreciation & amortisation" p) (- nca * da) ∧
  num_at v (IS_cell "Net finance costs" p) (- debt * cod) ∧
  deps workbook (IS_cell "Depreciation & amortisation" p) =
    [BS_cell "Total Non-Current Assets" (p - 1); A_cell AROW_DA_PCT p] ∧
  deps workbook (IS_cell "Net finance costs" p) =
    [BS_cell "Total Borrowings (current + non-current)" (p - 1); A_cell AROW_COD p].
Proof.
  intros Hv Hp Hnca Hda Hdebt Hcod.
  destruct (lagged_formulas p Hp) as [Fda Fnfc].
  split; [|split; [|split]].
  - eapply respects_evals; [done | exact Fda | evals_arith].
  - eapply respects_evals; [done | exact Fnfc | evals_arith].
  - unfold deps. rewrite Fda. reflexivity.
  - unfold deps. rewrite Fnfc. reflexivity.
Qed.

Lemma C7_witness :
  num_at values (IS_cell "Depreciation & amortisation" 5) (- 36050 * (7 # 250)) ∧
  num_at values (IS_cell "Net finance costs" 5) (- 25030 * (47 # 1000)).
Proof.
  assert (Hp : forecast 5) by (unfold forecast; lia).
  destruct (C7_lagged_drivers values 5 _ _ _ _ values_respect Hp
              (sample 0 _ _ eq_refl) (sample 1 _ _ eq_refl)
              (sample 2 _ _ eq_refl) (sample 3 _ _ eq_refl)) as (Ha & Hb & _).
  exact (conj Ha Hb).
Defined.

Lemma C8_witness :
  num_at values (IS_cell "Total Operating Expenses" 5) (- ((18321 # 4) * (61 # 200))).
Proof.
  assert (Hp : forecast 5) by (unfold forecast; lia).
  destruct (C8_corporate_costs_plug values 5 _ _ _ _ values_respect Hp
              (sample 4 _ _ eq_refl) (sample 5 _ _ eq_refl)
              (sample 6 _ _ eq_refl) (sample 7 _ _ eq_refl))
    as (emp & road & corp & _ & _ & _ & _ & H & _).
  exact H.
Defined.

(** ** Debt maturity profile (Notes) *)

(** The borrowings formulas of Note 4, all ten periods. *)
Lemma maturity_formulas p :
  p < 10 →
  let total := ERef (NOTES_cell "Total borrowings" p) in
  let within := ERef (NOTES_cell "  Within 1 year" p) in
  let m12 := ERef (NOTES_cell "  1-2 years" p) in
  let m25 := ERef (NOTES_cell "  2-5 years" p) in
  let over := ERef (NOTES_cell "  Over 5 years" p) in
  formula_at workbook (NOTES_cell "Current borrowings" p) =
    Some (ERef (BS_cell "Current borrowings" p)) ∧
  formula_at workbook (NOTES_cell "Total borrowings" p) =
    Some (ERef (BS_cell "Total Borrowings (current + non-current)" p)) ∧
  formula_at workbook (NOTES_cell "  Within 1 year" p) =
    Some (ERef (NOTES_cell "Current borrowings" p)) ∧
  formula_at workbook (NOTES_cell "  Over 5 years" p) =
    Some (EBin Sub (EBin Sub (EBin Sub total within) m12) m25) ∧
  formula_at workbook (NOTES_cell "  Total (maturity check)" p) =
    Some (EBin Add (EBin Add (EBin Add within m12) m25) over).
Proof.
  intros Hp%period_cases. each_period Hp; vm_compute; repeat split; reflexivity.
Qed.

(** C6.  For every period, historical and forecast, and whatever numbers
    the borrowings and the 1-2 and 2-5 year buckets are, the four maturity
    buckets add up exactly to Total Borrowings: the Over-5-years bucket is
    the residual Total - Within-1-year - 1-2-years - 2-5-years. *)
Theorem C6_maturity_reconciliation (v : cell → value) (p : nat) (cd t a b : Q) :
  respects workbook v →
  p < 10 →
  num_at v (BS_cell "Current borrowings" p) cd →
  num_at v (BS_cell "Total Borrowings (current + non-current)" p) t →
  num_at v (NOTES_cell "  1-2 years" p) a →
  num_at v (NOTES_cell "  2-5 years" p) b →
  ∃ over,
    num_at v (NOTES_cell "  Within 1 year" p) cd ∧
    num_at v (NOTES_cell "  Over 5 years" p) over ∧
    (over == t - cd - a - b)%Q ∧
    (cd + a + b + over == t)%Q ∧
    num_at v (NOTES_cell "Total borrowings" p) t ∧
    num_at v (NOTES_cell "  Total (maturity check)" p) t.
Proof.
  intros Hv Hp Hcd Ht Ha Hb.
  destruct (maturity_formulas p Hp) as (Fcd & Ft & Fw & Fo & Fs).
  assert (Hncd : num_at v (NOTES_cell "Current borrowings" p) cd).
  { eapply respects_evals; [done | exact Fcd | evals_arith]. }
  assert (Hnt : num_at v (NOTES_cell "Total borrowings" p) t).
  { eapply respects_evals; [done | exact Ft | evals_arith]. }
  assert (Hw : num_at v (NOTES_cell "  Within 1 year" p) cd).
  { eapply respects_evals; [done | exact Fw | evals_arith]. }
  assert (Ho : num_at v (NOTES_cell "  Over 5 years" p) (t - cd - a - b)).
  { eapply respects_evals; [done | exact Fo | evals_arith]. }
  exists (t - cd - a - b)%Q.
  split; [done|]. split; [done|]. split; [reflexivity|]. split; [ring|]. split; [done|].
  eapply respects_evals; [done | exact Fs |].
  eapply evals_proper; [evals_arith | ring].
Qed.

Lemma C6_witness :
  num_at values (NOTES_cell "  Total (maturity check)" 5) 25430.
Proof.
  assert (Hp : 5 < 10) by lia.
  destruct (C6_maturity_reconciliation values 5 _ _ _ _ values_respect Hp
              (sample 8 _ _ eq_refl) (sample 9 _ _ eq_refl)
              (sample 10 _ _ eq_refl) (sample 11 _ _ eq_refl))
    as (over & _ & _ & _ & _ & _ & H).
  exact H.
Defined.

(** ** Intangible assets roll-forward (Notes) *)

Lemma intangible_formulas p :
  p < 10 →
  formula_at workbook (NOTES_cell "Amortisation charge" p) =
    Some (EBin Mul (ERef (IS_cell "Depreciation & amortisation" p))
                   (ERef (A_cell AROW_DA_INTANG p))) ∧
  formula_at workbook (NOTES_cell "Closing balance" p) =
    Some (EBin Add (EBin Add (ERef (NOTES_cell "Opening balance" p))
                             (ERef (NOTES_cell "Additions (capitalised construction)" p)))
                   (ERef (NOTES_cell "Amortisation charge" p))) ∧
  formula_at workbook (NOTES_cell "Cross-check to BS" p) =
    Some (ERef (BS_cell "Intangible assets (concessions)" p)).
Proof.
  intros Hp%period_cases. each_period Hp; vm_compute; repeat split; reflexivity.
Qed.

(** After the first period the opening balance is the prior closing
    balance; in forecast periods the additions are the Notes construction
    revenue, which the Balance Sheet intangibles formula does not include. *)
Lemma intangible_links p :
  1 ≤ p < 10 →
  formula_at workbook (NOTES_cell "Opening balance" p) =
    Some (ERef (NOTES_cell "Closing balance" (p - 1))).
Proof.
  intros [H1 H2]. apply period_cases in H2.
  each_period H2; [exfalso; lia | ..]; vm_compute; reflexivity.
Qed.

(** C2, as the code has it.  For every period, the Notes closing balance
    is Opening balance + Additions + Amortisation charge, and the
    "Cross-check to BS" row under it shows the Balance Sheet "Intangible
    assets (concessions)" figure of the same period. *)
Theorem C2_intangible_roll_forward (v : cell → value) (p : nat) (o a m bs : Q) :
  respects workbook v →
  p < 10 →
  num_at v (NOTES_cell "Opening balance" p) o →
  num_at v (NOTES_cell "Additions (capitalised construction)" p) a →
  num_at v (NOTES_cell "Amortisation charge" p) m →
  num_at v (BS_cell "Intangible assets (concessions)" p) bs →
  num_at v (NOTES_cell "Closing balance" p) (o + a + m) ∧
  num_at v (NOTES_cell "Cross-check to BS" p) bs.
Proof.
  intros Hv Hp Ho Ha Hm Hbs.
  destruct (intangible_formulas p Hp) as (_ & Fc & Fx).
  split.
  - eapply respects_evals; [done | exact Fc | evals_arith].
  - eapply respects_evals; [done | exact Fx | evals_arith].
Qed.

Lemma C2_witness :
  num_at values (NOTES_cell "Closing balance" 0) (22100 + 530 + (-2568 # 5)) ∧
  num_at values (NOTES_cell "Cross-check to BS" 0) 22450.
Proof.
  assert (Hp : 0 < 10) by lia.
  exact (C2_intangible_roll_forward values 0 _ _ _ _ values_respect Hp
           (sample 12 _ _ eq_refl) (sample 13 _ _ eq_refl)
           (sample 14 _ _ eq_refl) (sample 15 _ _ eq_refl)).
Defined.

(** C2 as stated fails: in FY21 the closing balance of the roll-forward is
    22116.4 while the Balance Sheet intangibles line is 22450. *)
Lemma C2_counterexample :
  num_at values (NOTES_cell "Closing balance" 0) (110582 # 5) ∧
  num_at values (BS_cell "Intangible assets (concessions)" 0) 22450 ∧
  ¬ veq (values (NOTES_cell "Closing balance" 0))
        (values (BS_cell "Intangible assets (concessions)" 0)).
Proof. decide_values. Qed.

(** ** Segment reporting (Notes, historical) *)

Lemma segment_formulas p :
  historical p →
  formula_at workbook (NOTES_cell "Total segment revenue" p) =
    Some (EBin Add (EBin Add (EBin Add (ERef (segment_rev_cell "Melbourne (CityLink)" p))
                                       (ERef (segment_rev_cell "Sydney" p)))
                             (ERef (segment_rev_cell "Brisbane" p)))
                   (ERef (segment_rev_cell "North America" p))) ∧
  formula_at workbook (NOTES_cell "Total segment EBITDA" p) =
    Some (EBin Add (EBin Add (EBin Add (ERef (segment_ebitda_cell "Melbourne (CityLink)" p))
                                       (ERef (segment_ebitda_cell "Sydney" p)))
                             (ERef (segment_ebitda_cell "Brisbane" p)))
                   (ERef (segment_ebitda_cell "North America" p))) ∧
  formula_at workbook (NOTES_cell "Reconciliation to IS EBITDA" p) =
    Some (ERef (IS_cell "EBITDA" p)).
Proof.
  intros Hp%historical_cases. each_period Hp; vm_compute; repeat split; reflexivity.
Qed.

(** The segment rows hold the declared literals: the row under a segment's
    name is its revenue, the next one its EBITDA. *)
Lemma segment_rows_labelled :
  Forall (λ s, workbook !! (Notes, (row_of (NOTES_ROW generated) s + 1, LABEL_COL))
                 = Some (Text "  Revenue") ∧
               workbook !! (Notes, (row_of (NOTES_ROW generated) s + 2, LABEL_COL))
                 = Some (Text "  EBITDA"))
         segments.
Proof. repeat constructor; vm_compute; reflexivity. Qed.

(** C5, as the code has it.  For every historical period the four segment
    revenues add up to the Income Statement's Total Revenue; the Total
    segment EBITDA row is the sum of the four segment EBITDAs, and the
    reconciliation row next to it shows the Income Statement's EBITDA. *)
Theorem C5_segment_reconciliation (p : nat) :
  historical p →
  num_at values (NOTES_cell "Total segment revenue" p)
         (sum_at values ((λ s, segment_rev_cell s p) <$> segments)) ∧
  num_at values (IS_cell "Total Revenue" p)
         (sum_at values ((λ s, segment_rev_cell s p) <$> segments)) ∧
  num_at values (NOTES_cell "Total segment EBITDA" p)
         (sum_at values ((λ s, segment_ebitda_cell s p) <$> segments)) ∧
  veq (values (NOTES_cell "Reconciliation to IS EBITDA" p)) (values (IS_cell "EBITDA" p)).
Proof. revert p. apply historical_Forall. decide_values. Qed.

Lemma C5_witness :
  num_at values (IS_cell "Total Revenue" 0)
         (sum_at values ((λ s, segment_rev_cell s 0) <$> segments)).
Proof.
  assert (Hp : historical 0) by (unfold historical; lia).
  exact (proj1 (proj2 (C5_segment_reconciliation 0 Hp))).
Defined.

(** C5 as stated fails: in FY21 the four segment EBITDAs add up to 1800,
    the Income Statement's EBITDA is 1801. *)
Lemma C5_counterexample :
  (sum_at values ((λ s, segment_ebitda_cell s 0) <$> segments) == 1800)%Q ∧
  num_at values (NOTES_cell "Total segment EBITDA" 0) 1800 ∧
  num_at values (IS_cell "EBITDA" 0) 1801 ∧
  ¬ veq (values (NOTES_cell "Total segment EBITDA" 0)) (values (IS_cell "EBITDA" 0)).
Proof. decide_values. Qed.

(** ** Balance Sheet check *)

Lemma check_formula p :
  p < 10 →
  formula_at workbook (BS_cell "Balance Sheet Check (Assets - L&E)" p) =
    Some (EBin Sub (ERef (BS_cell "Total Assets" p))
                   (ERef (BS_cell "Total Liabilities & Equity" p))).
Proof.
  intros Hp%period_cases. each_period Hp; vm_compute; reflexivity.
Qed.

(** In the historical periods the check row is exactly 0. *)
Lemma check_historical p :
  historical p → num_at values (BS_cell "Balance Sheet Check (Assets - L&E)" p) 0.
Proof. revert p. apply historical_Forall. decide_values. Qed.

(** C1 at the first forecast period (FY26F): Total Assets - Total
    Liabilities & Equity is 13.6, not within 1e-6 of 0; the check row is
    13.6, 30.386, 50.39194, 73.6528094 and 100.204653826 in the five
    forecast periods. *)
Theorem C1_forecast_check_nonzero :
  num_at values (BS_cell "Balance Sheet Check (Assets - L&E)" 5) (68 # 5) ∧
  (1 # 1000000 < Qabs (68 # 5))%Q ∧
  Forall2 (λ p x, num_at values (BS_cell "Balance Sheet Check (Assets - L&E)" p) x)
          [5; 6; 7; 8; 9]
          [68 # 5; 15193 # 500; 2519597 # 50000; 368264047 # 5000000;
           50102326913 # 500000000]%Q.
Proof.
  assert (H : num_at values (BS_cell "Balance Sheet Check (Assets - L&E)" 5) (68 # 5) ∧
              Forall2 (λ p x, num_at values (BS_cell "Balance Sheet Check (Assets - L&E)" p) x)
                      [5; 6; 7; 8; 9]
                      [68 # 5; 15193 # 500; 2519597 # 50000; 368264047 # 5000000;
                       50102326913 # 500000000]%Q)
    by decide_values.
  destruct H as [H1 H2]. split; [exact H1|]. split; [reflexivity | exact H2].
Qed.
